(** * Machine_learning/Training.py: the training script as a sequence of library calls

    The script is one module-level block: it loads an Excel sheet, encodes
    the target and the categorical columns, splits, scales, tunes a LightGBM
    classifier by grid search, fits and scores three classifiers and writes
    the model, the scaler and the splits under [data/].

    Everything numerical is done by pandas, scikit-learn, LightGBM and joblib.
    Those routines are the fields of the class [PyLib]; the script itself is
    the term [main], written in a small state-and-exception monad over a
    [world] made of the file system, the two object stores the script shares
    references into (data frames and estimators) and the log of library calls.

    Not modelled: console output ([print]), the warnings filter, failures of
    the imports, of [os.makedirs] and of the writes to [data/]. An exception
    is an instance of Python's [Exception], which is what line 133 catches;
    [KeyboardInterrupt] and [SystemExit] are outside the model. Arrays and
    label vectors are values: no call of the script writes to them. *)

From Stdlib Require Import QArith.
From stdpp Require Import gmap strings list fin_maps.

Open Scope string_scope.
Open Scope list_scope.

(** ** Python values that appear as keyword arguments *)

Inductive pyval :=
| PyInt (n : Z)
| PyFloat (q : Q)
| PyStr (s : string)
| PyBool (b : bool).

Abbreviation kwargs := (list (string * pyval)) (only parsing).

#[global] Instance Q_eq_dec : EqDecision Q.
Proof. solve_decision. Defined.

#[global] Instance pyval_eq_dec : EqDecision pyval.
Proof. solve_decision. Defined.

(** A reference into one of the object stores ([id(obj)] in Python). *)
Abbreviation ref := nat (only parsing).

(** ** The data the libraries exchange with the script *)

Class PyData := {
  DataFrame : Type;   (* pandas.DataFrame *)
  Labels : Type;      (* a label vector: pandas.Series or 1-d ndarray *)
  NdArray : Type;     (* a float ndarray *)
  Estimator : Type;   (* the state of a classifier object *)
  Scaler : Type;      (* the state of a StandardScaler object *)
  LibExc : Type;      (* an Exception raised inside a library call *)
  DataFrame_inhabited :: Inhabited DataFrame;
  Estimator_inhabited :: Inhabited Estimator
}.

Section Files.
Context {data : PyData}.

(** What a path of the file system holds. *)
Inductive file :=
| Csv (df : DataFrame)               (* written by [DataFrame.to_csv(index=False)] *)
| PickledEstimator (m : Estimator)   (* written by [joblib.dump] *)
| PickledScaler (s : Scaler)
| Blob (data : string).              (* anything else, e.g. the workbook *)

(** The result of a library call: its value or the exception it raised. *)
Definition libres (A : Type) : Type := LibExc + A.

(** The fitted [GridSearchCV] object, as far as the script reads it. *)
Record GridSearchCV := {
  estimator : Estimator;
  param_grid : list (string * list pyval);
  scoring : string;
  cv : nat;
  n_jobs : Z
}.

Record SearchResult := {
  cv_results_ : list (kwargs * list Q);   (* per candidate: its fold scores *)
  best_params_ : kwargs;
  best_estimator_ : ref
}.

(** One entry of the [results] dictionary (lines 125-131). *)
Record Metrics := {
  Accuracy : Q;
  Precision : Q;
  Recall : Q;
  F1_score : Q;
  AUC_ROC : option Q
}.

(** The log of library calls, in program order. *)
Inductive event :=
| Makedirs (path : string)
| ReadExcel (path : string)
| EncodeTarget (y : Labels)
| EncodeColumn (col : string)
| TrainTestSplit (X : DataFrame) (y : Labels) (test_size : Q)
    (random_state : Z) (stratify : Labels)
| Copy (src dst : ref)
| ScalerFitTransform (X : ref)
| ScalerTransform (X : ref)
| ToCsv (path : string)
| GridSearchFit (gs : GridSearchCV)
| Fit (model : ref)
| Predict (model : ref)
| Score (metric : string)
| PredictProba (model : ref)
| Dump (path : string).

End Files.

(** ** The library routines the script calls *)

Class PyLib {data : PyData} := {
  (* pandas *)
  read_excel : gmap string file -> string -> libres DataFrame;
  columns : DataFrame -> list string;
  drop : DataFrame -> list string -> DataFrame;
  getitem : DataFrame -> string -> Labels;
  setitem : DataFrame -> string -> Labels -> DataFrame;
  dtype_is_object : Labels -> bool;
  unique : Labels -> Labels;
  len : Labels -> nat;
  select_dtypes_object : DataFrame -> list string;
  DataFrame_of_array : NdArray -> list string -> DataFrame;
  DataFrame_of_labels : Labels -> DataFrame;
  (* sklearn.preprocessing *)
  LabelEncoder_fit_transform : Labels -> libres Labels;
  StandardScaler : Scaler;
  (* a method of the scaler may change the scaler and the frame it is given *)
  StandardScaler_fit_transform :
    Scaler -> DataFrame -> Scaler * DataFrame * libres NdArray;
  StandardScaler_transform :
    Scaler -> DataFrame -> Scaler * DataFrame * libres NdArray;
  (* sklearn.model_selection *)
  train_test_split :
    DataFrame -> Labels -> Q -> Z -> Labels ->
    libres (DataFrame * DataFrame * Labels * Labels);
  set_params : Estimator -> kwargs -> Estimator;
  fit_and_score :
    Estimator -> NdArray -> Labels -> string -> nat -> nat -> Q;
  no_candidates : LibExc;
  (* the classifiers *)
  SVC : kwargs -> Estimator;
  RandomForestClassifier : kwargs -> Estimator;
  LGBMClassifier : kwargs -> Estimator;
  (* [fit] changes the estimator in place, also when it raises *)
  fit : Estimator -> NdArray -> Labels -> Estimator * option LibExc;
  predict : Estimator -> NdArray -> libres Labels;
  hasattr_predict_proba : Estimator -> bool;
  predict_proba : Estimator -> NdArray -> libres NdArray;
  column : NdArray -> nat -> libres NdArray;
  (* sklearn.metrics *)
  accuracy_score : Labels -> Labels -> libres Q;
  precision_score : Labels -> Labels -> string -> libres Q;
  recall_score : Labels -> Labels -> string -> libres Q;
  f1_score : Labels -> Labels -> string -> libres Q;
  roc_auc_score : Labels -> NdArray -> libres Q
}.

Section Script.
Context {data : PyData}.

(** ** The state of a run *)

Record world := World {
  files : gmap string file;
  dirs : gset string;
  frames : list DataFrame;
  estimators : list Estimator;
  trace : list event
}.

Definition set_files (f : gmap string file -> gmap string file) (w : world) :=
  World (f (files w)) (dirs w) (frames w) (estimators w) (trace w).
Definition set_dirs (f : gset string -> gset string) (w : world) :=
  World (files w) (f (dirs w)) (frames w) (estimators w) (trace w).
Definition set_frames (f : list DataFrame -> list DataFrame) (w : world) :=
  World (files w) (dirs w) (f (frames w)) (estimators w) (trace w).
Definition set_estimators (f : list Estimator -> list Estimator) (w : world) :=
  World (files w) (dirs w) (frames w) (f (estimators w)) (trace w).
Definition set_trace (f : list event -> list event) (w : world) :=
  World (files w) (dirs w) (frames w) (estimators w) (f (trace w)).

(** The process starts with empty stores and an empty log. *)
Definition boot (fs : gmap string file) (ds : gset string) : world :=
  World fs ds [] [] [].

(** ** Exceptions and the monad *)

Inductive exception :=
| FileNotFoundError (msg : string)   (* the script's own [raise], line 21 *)
| ValueError (msg : string)          (* the script's own [raise], line 33 *)
| LibraryError (e : LibExc).         (* raised from inside a library call *)

Inductive outcome (A : Type) :=
| Returned (a : A)
| Raised (e : exception).
Arguments Returned {A} a.
Arguments Raised {A} e.

Definition M (A : Type) : Type := world -> world * outcome A.

Definition ret {A} (a : A) : M A := fun w => (w, Returned a).

Definition bind {A B} (m : M A) (k : A -> M B) : M B :=
  fun w =>
    match m w with
    | (w1, Returned a) => k a w1
    | (w1, Raised e) => (w1, Raised e)
    end.

Definition raise {A} (e : exception) : M A := fun w => (w, Raised e).

(** [try: body except Exception as e: handler e] *)
Definition try_except {A} (body : M A) (handler : exception -> M A) : M A :=
  fun w =>
    match body w with
    | (w1, Returned a) => (w1, Returned a)
    | (w1, Raised e) => handler e w1
    end.

Definition get : M world := fun w => (w, Returned w).
Definition modify (f : world -> world) : M unit := fun w => (f w, Returned tt).
Definition log (ev : event) : M unit := modify (set_trace (fun t => t ++ [ev])).

Definition lift {A} (r : libres A) : M A :=
  match r with
  | inl e => raise (LibraryError e)
  | inr a => ret a
  end.

(** A logged library call. *)
Definition call {A} (ev : event) (r : libres A) : M A :=
  bind (log ev) (fun _ => lift r).

End Script.

Arguments Returned {_ A} a.
Arguments Raised {_ A} e.

Notation "x <- m ;; k" := (bind m (fun x => k))
  (at level 100, m at next level, right associativity,
   format "'[v' x  <-  m  ;; '/' k ']'").
Notation "m ;;; k" := (bind m (fun _ => k))
  (at level 100, right associativity,
   format "'[v' m  ;;; '/' k ']'").

Section Pipeline.
Context {data : PyData} {lib : PyLib}.

(** ** Object stores *)

Definition new_frame (df : DataFrame) : M ref :=
  fun w => (set_frames (fun s => s ++ [df]) w, Returned (length (frames w))).

Definition new_estimator (m : Estimator) : M ref :=
  fun w => (set_estimators (fun s => s ++ [m]) w, Returned (length (estimators w))).

(** [X.copy()]: a new frame object with the contents of [X]. *)
Definition copy (X : ref) : M ref :=
  w <- get ;;
  dst <- new_frame (frames w !!! X) ;;
  log (Copy X dst) ;;;
  ret dst.

(** ** File system *)

(** [os.makedirs(path, exist_ok=True)] *)
Definition makedirs (path : string) : M unit :=
  log (Makedirs path) ;;;
  modify (set_dirs (fun ds => {[path]} ∪ ds)).

(** [os.path.exists(path)]: the path is a file or a directory. *)
Definition exists_on_disk (w : world) (path : string) : bool :=
  bool_decide (is_Some (files w !! path)) || bool_decide (path ∈ dirs w).

Definition path_exists (path : string) : M bool :=
  w <- get ;;
  ret (exists_on_disk w path).

Definition pd_read_excel (path : string) : M DataFrame :=
  w <- get ;;
  call (ReadExcel path) (read_excel (files w) path).

(** [df.to_csv(path, index=False)] *)
Definition to_csv (df : DataFrame) (path : string) : M unit :=
  log (ToCsv path) ;;;
  modify (set_files (<[path := Csv df]>)).

Definition frame_to_csv (X : ref) (path : string) : M unit :=
  w <- get ;;
  to_csv (frames w !!! X) path.

(** [joblib.dump(obj, path)] *)
Definition dump_estimator (model : ref) (path : string) : M unit :=
  log (Dump path) ;;;
  w <- get ;;
  modify (set_files (<[path := PickledEstimator (estimators w !!! model)]>)).

Definition dump_scaler (s : Scaler) (path : string) : M unit :=
  log (Dump path) ;;;
  modify (set_files (<[path := PickledScaler s]>)).

(** ** Methods that change their object in place *)

Definition scaler_fit_transform (s : Scaler) (X : ref) : M (Scaler * NdArray) :=
  log (ScalerFitTransform X) ;;;
  w <- get ;;
  let '(s', df', r) := StandardScaler_fit_transform s (frames w !!! X) in
  modify (set_frames (<[X := df']>)) ;;;
  a <- lift r ;;
  ret (s', a).

Definition scaler_transform (s : Scaler) (X : ref) : M (Scaler * NdArray) :=
  log (ScalerTransform X) ;;;
  w <- get ;;
  let '(s', df', r) := StandardScaler_transform s (frames w !!! X) in
  modify (set_frames (<[X := df']>)) ;;;
  a <- lift r ;;
  ret (s', a).

(** [model.fit(X, y)] *)
Definition model_fit (model : ref) (X : NdArray) (y : Labels) : M unit :=
  log (Fit model) ;;;
  w <- get ;;
  let '(m', exc) := fit (estimators w !!! model) X y in
  modify (set_estimators (<[model := m']>)) ;;;
  match exc with
  | Some e => raise (LibraryError e)
  | None => ret tt
  end.

(** [model.predict(X)] *)
Definition model_predict (model : ref) (X : NdArray) : M Labels :=
  w <- get ;;
  call (Predict model) (predict (estimators w !!! model) X).

(** ** Grid search (lines 68-89) *)

(** Modelled from the spec: [GridSearchCV] is scikit-learn's, its code is not
    in the repository. The glossary calls it an "exhaustive hyperparameter
    search over a fixed parameter grid with cross-validated scoring": the
    candidates are all the combinations of the grid, each is scored on every
    one of the [cv] folds with the [scoring] metric, and a candidate of
    greatest mean score is kept and refitted on the whole training set. The
    score of one candidate on one fold is the library's [fit_and_score]. *)
Fixpoint ParameterGrid (grid : list (string * list pyval)) : list kwargs :=
  match grid with
  | [] => [[]]
  | (k, vs) :: rest =>
      flat_map (fun v => map (fun p => (k, v) :: p) (ParameterGrid rest)) vs
  end.

Definition fold_scores (gs : GridSearchCV) (X : NdArray) (y : Labels)
    (p : kwargs) : list Q :=
  map (fit_and_score (set_params (estimator gs) p) X y (scoring gs) (cv gs))
      (seq 0 (cv gs)).

Definition mean (l : list Q) : Q :=
  (fold_right Qplus 0 l / inject_Z (Z.of_nat (length l)))%Q.

Definition mean_test_score (row : kwargs * list Q) : Q := mean (snd row).

(** The first row of greatest mean score. *)
Fixpoint best_row (row : kwargs * list Q) (rows : list (kwargs * list Q))
    : kwargs * list Q :=
  match rows with
  | [] => row
  | r :: rest =>
      if Qlt_le_dec (mean_test_score row) (mean_test_score r)
      then best_row r rest
      else best_row row rest
  end.

(** Modelled from the spec: [GridSearchCV(...).fit(X, y)], see [ParameterGrid]. *)
Definition GridSearchCV_fit (gs : GridSearchCV) (X : NdArray) (y : Labels)
    : M SearchResult :=
  log (GridSearchFit gs) ;;;
  let table :=
    map (fun p => (p, fold_scores gs X y p)) (ParameterGrid (param_grid gs)) in
  match table with
  | [] => raise (LibraryError no_candidates)
  | row :: rows =>
      let params := fst (best_row row rows) in
      let '(m, exc) := fit (set_params (estimator gs) params) X y in
      match exc with
      | Some e => raise (LibraryError e)
      | None =>
          r <- new_estimator m ;;
          ret {| cv_results_ := table; best_params_ := params;
                 best_estimator_ := r |}
      end
  end.

(** ** The script (Training.py, lines 13-155) *)

Definition file_path : string :=
  "C:/Users/hp/Documents/GitHub/pediatric-appendicitis-diagnosis/data/cleaned_data.xlsx".

Definition target_col : string := "Diagnosis".

(** Lines 13-33: the two existence checks around the load. *)
Definition load : M DataFrame :=
  makedirs "data" ;;;
  found <- path_exists file_path ;;
  if negb found then
    raise (FileNotFoundError ("❌ Fichier non trouvé : " +:+ file_path))
  else
    dataset <- pd_read_excel file_path ;;
    if negb (bool_decide (target_col ∈ columns dataset)) then
      raise (ValueError ("❌ La colonne cible '" +:+ target_col
                         +:+ "' est introuvable dans le dataset."))
    else ret dataset.

(** Lines 40-41. *)
Definition encode_target (y : Labels) : M Labels :=
  if dtype_is_object y || (2 <? len (unique y))%nat then
    call (EncodeTarget y) (LabelEncoder_fit_transform y)
  else ret y.

(** Lines 44-47. *)
Fixpoint encode_columns (cols : list string) (X : DataFrame) : M DataFrame :=
  match cols with
  | [] => ret X
  | col :: rest =>
      v <- call (EncodeColumn col) (LabelEncoder_fit_transform (getitem X col)) ;;
      encode_columns rest (setitem X col v)
  end.

(** Lines 50-52. *)
Definition split (X : DataFrame) (y : Labels) : M (ref * ref * Labels * Labels) :=
  r <- call (TrainTestSplit X y 0.2 42 y) (train_test_split X y 0.2 42 y) ;;
  let '(X_train, X_test, y_train, y_test) := r in
  X_train <- new_frame X_train ;;
  X_test <- new_frame X_test ;;
  ret (X_train, X_test, y_train, y_test).

(** Lines 68-74. *)
Definition the_param_grid : list (string * list pyval) :=
  [ ("n_estimators", [PyInt 100; PyInt 200; PyInt 300]);
    ("learning_rate", [PyFloat 0.01; PyFloat 0.1; PyFloat 0.3]);
    ("max_depth", [PyInt 3; PyInt 5; PyInt 10]);
    ("num_leaves", [PyInt 20; PyInt 31; PyInt 40]);
    ("min_child_samples", [PyInt 5; PyInt 10; PyInt 20]) ].

(** Lines 77-86. *)
Definition lgbm : Estimator := LGBMClassifier [("random_state", PyInt 42)].

Definition grid_search : GridSearchCV :=
  {| estimator := lgbm; param_grid := the_param_grid;
     scoring := "f1_weighted"; cv := 5; n_jobs := (-1) |}.

(** Lines 108-131: the body of the [try]. *)
Definition evaluate (model : ref) (X_train X_test : NdArray)
    (y_train y_test : Labels) : M Metrics :=
  model_fit model X_train y_train ;;;
  y_pred <- model_predict model X_test ;;
  accuracy <- call (Score "Accuracy") (accuracy_score y_test y_pred) ;;
  precision <- call (Score "Precision") (precision_score y_test y_pred "weighted") ;;
  recall <- call (Score "Recall") (recall_score y_test y_pred "weighted") ;;
  f1 <- call (Score "F1-score") (f1_score y_test y_pred "weighted") ;;
  w <- get ;;
  y_prob <-
    (if hasattr_predict_proba (estimators w !!! model) then
       proba <- call (PredictProba model)
                     (predict_proba (estimators w !!! model) X_test) ;;
       p1 <- lift (column proba 1) ;;
       ret (Some p1)
     else ret None) ;;
  auc <-
    match y_prob with
    | Some p1 => a <- call (Score "AUC-ROC") (roc_auc_score y_test p1) ;; ret (Some a)
    | None => ret None
    end ;;
  ret {| Accuracy := accuracy; Precision := precision; Recall := recall;
         F1_score := f1; AUC_ROC := auc |}.

(** Lines 105-134: the comparison loop. *)
Fixpoint train_and_evaluate (models : list (string * ref))
    (X_train X_test : NdArray) (y_train y_test : Labels)
    (results : gmap string Metrics) : M (gmap string Metrics) :=
  match models with
  | [] => ret results
  | (name, model) :: rest =>
      results <-
        try_except
          (metrics <- evaluate model X_train X_test y_train y_test ;;
           ret (<[name := metrics]> results))
          (fun e => ret results) ;;
      train_and_evaluate rest X_train X_test y_train y_test results
  end.

(** The module's global variables when the script ends. *)
Record Namespace := {
  g_X : DataFrame;
  g_y : Labels;
  g_X_train_original : ref;
  g_X_test_original : ref;
  g_X_train : NdArray;
  g_X_test : NdArray;
  g_y_train : Labels;
  g_y_test : Labels;
  g_scaler : Scaler;
  g_grid_search : SearchResult;
  g_best_model : ref;
  g_models : list (string * ref);
  g_results : gmap string Metrics
}.

(** Lines 36-155: everything after the two checks. *)
Definition train (dataset : DataFrame) : M Namespace :=
  (* lines 36-47 *)
  let X := drop dataset [target_col] in
  let y := getitem dataset target_col in
  y <- encode_target y ;;
  X <- encode_columns (select_dtypes_object X) X ;;
  (* lines 50-57 *)
  s <- split X y ;;
  let '(X_train_df, X_test_df, y_train, y_test) := s in
  X_train_original <- copy X_train_df ;;
  X_test_original <- copy X_test_df ;;
  (* lines 60-65 *)
  let scaler := StandardScaler in
  r <- scaler_fit_transform scaler X_train_df ;;
  let '(scaler, X_train) := r in
  r <- scaler_transform scaler X_test_df ;;
  let '(scaler, X_test) := r in
  frame_to_csv X_train_original "data/X_train_original.csv" ;;;
  frame_to_csv X_test_original "data/X_test_original.csv" ;;;
  (* lines 77-90 *)
  search <- GridSearchCV_fit grid_search X_train y_train ;;
  let best_model := best_estimator_ search in
  model_fit best_model X_train y_train ;;;
  (* lines 96-134 *)
  svm <- new_estimator
           (SVC [("probability", PyBool true); ("kernel", PyStr "linear");
                 ("random_state", PyInt 42)]) ;;
  forest <- new_estimator
              (RandomForestClassifier
                 [("n_jobs", PyInt (-1)); ("random_state", PyInt 42)]) ;;
  let models :=
    [("SVM", svm); ("Random Forest", forest); ("LightGBM Optimisé", best_model)] in
  results <- train_and_evaluate models X_train X_test y_train y_test ∅ ;;
  (* lines 145-155 *)
  to_csv (DataFrame_of_array X_train (columns X)) "data/X_train.csv" ;;;
  to_csv (DataFrame_of_array X_test (columns X)) "data/X_test.csv" ;;;
  to_csv (DataFrame_of_labels y_train) "data/y_train.csv" ;;;
  to_csv (DataFrame_of_labels y_test) "data/y_test.csv" ;;;
  dump_estimator best_model "data/best_model.pkl" ;;;
  dump_scaler scaler "data/scaler.pkl" ;;;
  ret {| g_X := X; g_y := y;
         g_X_train_original := X_train_original;
         g_X_test_original := X_test_original;
         g_X_train := X_train; g_X_test := X_test;
         g_y_train := y_train; g_y_test := y_test;
         g_scaler := scaler; g_grid_search := search;
         g_best_model := best_model; g_models := models;
         g_results := results |}.

Definition main : M Namespace :=
  dataset <- load ;;
  train dataset.

(** A run of the script in a fresh process, on a given file system. *)
Definition run (fs : gmap string file) (ds : gset string) : world * outcome Namespace :=
  main (boot fs ds).

End Pipeline.

(** ** Stages of the pipeline *)

Section Stages.
Context {data : PyData}.

Definition original_csv (path : string) : bool :=
  String.eqb path "data/X_train_original.csv"
  || String.eqb path "data/X_test_original.csv".

(** The stage a library call belongs to, in the order of the code:
    0 load, 1 encode, 2 split, 3 scale, 4 write the unscaled copies,
    5 grid search, 6 fit and evaluate, 7 save. *)
Definition stage_of (e : event) : option nat :=
  match e with
  | Makedirs _ | Copy _ _ => None
  | ReadExcel _ => Some 0
  | EncodeTarget _ | EncodeColumn _ => Some 1
  | TrainTestSplit _ _ _ _ _ => Some 2
  | ScalerFitTransform _ | ScalerTransform _ => Some 3
  | ToCsv path => if original_csv path then Some 4 else Some 7
  | GridSearchFit _ => Some 5
  | Fit _ | Predict _ | Score _ | PredictProba _ => Some 6
  | Dump _ => Some 7
  end.

(** The stages as the specification lists them: every write belongs to the
    last one. *)
Definition listed_stage (e : event) : option nat :=
  match e with
  | ToCsv _ => Some 7
  | _ => stage_of e
  end.

(** No call of a stage comes after a call of a later stage. *)
Definition in_stage_order (stage : event -> option nat) (t : list event) : Prop :=
  forall i j e1 e2 s1 s2,
    i < j -> t !! i = Some e1 -> t !! j = Some e2 ->
    stage e1 = Some s1 -> stage e2 = Some s2 -> s1 <= s2.

(** Stages ascend along [t] and stay between [lo] and [hi]. *)
Fixpoint ascending (stage : event -> option nat) (lo hi : nat) (t : list event) : Prop :=
  match t with
  | [] => lo <= hi
  | e :: rest =>
      match stage e with
      | None => ascending stage lo hi rest
      | Some s => lo <= s /\ ascending stage s hi rest
      end
  end.

(** The estimators fitted by the script's own [fit] calls, in order. *)
Definition fitted_models (t : list event) : list ref :=
  omap (fun e => match e with Fit r => Some r | _ => None end) t.

(** [m] only appends to the log, and what it appends satisfies [P]. *)
Definition emits (P : list event -> Prop) {A} (m : M A) : Prop :=
  forall w, exists evs, trace (fst (m w)) = trace w ++ evs /\ P evs.

(** Whatever [m] raises was raised inside a library call. *)
Definition raises_only_library {A} (m : M A) : Prop :=
  forall w w' e, m w = (w', Raised e) -> exists le, e = LibraryError le.

End Stages.

(** ** What the entries of [results] are *)

Section Evaluation.
Context {data : PyData} {lib : PyLib}.

(** [auc] is the AUC-ROC entry computed from the fitted estimator [m]. *)
Definition auc_entry (m : Estimator) (X_test : NdArray) (y_test : Labels)
    (auc : option Q) : Prop :=
  if hasattr_predict_proba m then
    exists proba p1 a,
      predict_proba m X_test = inr proba /\ column proba 1 = inr p1
      /\ roc_auc_score y_test p1 = inr a /\ auc = Some a
  else auc = None.

(** [mt] holds the five metrics of the fitted estimator [m] on the test set. *)
Definition scored (m : Estimator) (X_test : NdArray) (y_test : Labels)
    (mt : Metrics) : Prop :=
  exists y_pred,
    predict m X_test = inr y_pred
    /\ accuracy_score y_test y_pred = inr (Accuracy mt)
    /\ precision_score y_test y_pred "weighted" = inr (Precision mt)
    /\ recall_score y_test y_pred "weighted" = inr (Recall mt)
    /\ f1_score y_test y_pred "weighted" = inr (F1_score mt)
    /\ auc_entry m X_test y_test (AUC_ROC mt).

(** The calls that encode the categorical columns. *)
Definition column_event (e : event) : Prop :=
  match e with
  | EncodeColumn _ => True
  | _ => False
  end.

(** Whether the script encodes the target [y] (line 40). *)
Definition target_needs_encoding (y : Labels) : bool :=
  dtype_is_object y || (2 <? len (unique y))%nat.

(** The rows of [cv_results_] for a search [gs] on [(X, y)]. *)
Definition search_table (gs : GridSearchCV) (X : NdArray) (y : Labels)
    : list (kwargs * list Q) :=
  map (fun p => (p, fold_scores gs X y p)) (ParameterGrid (param_grid gs)).

(** The calls of the comparison loop. *)
Definition comparison_event (e : event) : Prop :=
  match e with
  | Fit _ | Predict _ | Score _ | PredictProba _ => True
  | _ => False
  end.

(** The calls an evaluation makes after its [fit]. *)
Definition evaluation_event (e : event) : Prop :=
  match e with
  | Predict _ | Score _ | PredictProba _ => True
  | _ => False
  end.

(** The three classifiers of the comparison (lines 96-100), as references
    into the estimator store of a run that started with empty stores. *)
Definition the_models : list (string * ref) :=
  [("SVM", 1); ("Random Forest", 2); ("LightGBM Optimisé", 0)].

Definition svc : Estimator :=
  SVC [("probability", PyBool true); ("kernel", PyStr "linear");
       ("random_state", PyInt 42)].

Definition random_forest : Estimator :=
  RandomForestClassifier [("n_jobs", PyInt (-1)); ("random_state", PyInt 42)].

(** What a run that reached the end of the script went through: the values
    the library returned at each step, the final stores, files and log. *)
Definition completed_run (fs : gmap string file) (ds : gset string)
    (w' : world) (ns : Namespace) : Prop :=
  exists (dataset X_train_df X_test_df after_fit after_transform : DataFrame)
         (scaler1 : Scaler) (m0 m1 : Estimator) (evs_cols evs_cmp : list event),
    let y0 := getitem dataset target_col in
    let X0 := drop dataset [target_col] in
    let X_train := g_X_train ns in
    let y_train := g_y_train ns in
    (* lines 20-33 *)
    (is_Some (fs !! file_path) \/ file_path ∈ ds)
    /\ read_excel fs file_path = inr dataset
    /\ target_col ∈ columns dataset
    (* lines 36-47 *)
    /\ (if target_needs_encoding y0
        then LabelEncoder_fit_transform y0 = inr (g_y ns)
        else g_y ns = y0)
    /\ (exists w0 w1,
          encode_columns (select_dtypes_object X0) X0 w0
          = (w1, Returned (g_X ns)))
    (* lines 50-62 *)
    /\ train_test_split (g_X ns) (g_y ns) 0.2 42 (g_y ns)
       = inr (X_train_df, X_test_df, y_train, g_y_test ns)
    /\ StandardScaler_fit_transform StandardScaler X_train_df
       = (scaler1, after_fit, inr X_train)
    /\ StandardScaler_transform scaler1 X_test_df
       = (g_scaler ns, after_transform, inr (g_X_test ns))
    (* lines 88-90 *)
    /\ cv_results_ (g_grid_search ns) = search_table grid_search X_train y_train
    /\ (exists row rows,
          search_table grid_search X_train y_train = row :: rows
          /\ best_params_ (g_grid_search ns) = fst (best_row row rows))
    /\ fit (set_params lgbm (best_params_ (g_grid_search ns))) X_train y_train
       = (m0, None)
    /\ best_estimator_ (g_grid_search ns) = 0
    /\ fit m0 X_train y_train = (m1, None)
    (* the variables *)
    /\ g_best_model ns = 0
    /\ g_models ns = the_models
    /\ g_X_train_original ns = 2
    /\ g_X_test_original ns = 3
    (* the stores *)
    /\ frames w' = [after_fit; after_transform; X_train_df; X_test_df]
    /\ estimators w'
       = [fst (fit m1 X_train y_train); fst (fit svc X_train y_train);
          fst (fit random_forest X_train y_train)]
    (* lines 103-134 *)
    /\ (forall name,
          g_results ns !! name = None
          \/ exists model mt,
               (name, model) ∈ the_models
               /\ g_results ns !! name = Some mt
               /\ scored (estimators w' !!! model) (g_X_test ns) (g_y_test ns) mt)
    (* the file system *)
    /\ files w'
       = <["data/scaler.pkl" := PickledScaler (g_scaler ns)]>
         (<["data/best_model.pkl" := PickledEstimator (fst (fit m1 X_train y_train))]>
         (<["data/y_test.csv" := Csv (DataFrame_of_labels (g_y_test ns))]>
         (<["data/y_train.csv" := Csv (DataFrame_of_labels y_train)]>
         (<["data/X_test.csv" :=
              Csv (DataFrame_of_array (g_X_test ns) (columns (g_X ns)))]>
         (<["data/X_train.csv" :=
              Csv (DataFrame_of_array X_train (columns (g_X ns)))]>
         (<["data/X_test_original.csv" := Csv X_test_df]>
         (<["data/X_train_original.csv" := Csv X_train_df]> fs)))))))
    /\ dirs w' = {["data"]} ∪ ds
    (* the log *)
    /\ trace w'
       = [Makedirs "data"; ReadExcel file_path]
         ++ (if target_needs_encoding y0 then [EncodeTarget y0] else [])
         ++ evs_cols
         ++ [TrainTestSplit (g_X ns) (g_y ns) 0.2 42 (g_y ns);
             Copy 0 2; Copy 1 3;
             ScalerFitTransform 0; ScalerTransform 1;
             ToCsv "data/X_train_original.csv";
             ToCsv "data/X_test_original.csv";
             GridSearchFit grid_search; Fit 0]
         ++ evs_cmp
         ++ [ToCsv "data/X_train.csv"; ToCsv "data/X_test.csv";
             ToCsv "data/y_train.csv"; ToCsv "data/y_test.csv";
             Dump "data/best_model.pkl"; Dump "data/scaler.pkl"]
    /\ Forall column_event evs_cols
    /\ Forall comparison_event evs_cmp
    /\ fitted_models evs_cmp = [1; 2; 0].

(** The reading of the specification's "persists the best model": the
    pickled estimator is the one of a compared classifier whose [score] no
    other entry of [results] exceeds. *)
Definition saved_model_is_best (score : Metrics -> Q) (w' : world)
    (ns : Namespace) : Prop :=
  exists name model mt,
    (name, model) ∈ g_models ns
    /\ g_results ns !! name = Some mt
    /\ files w' !! "data/best_model.pkl"
       = Some (PickledEstimator (estimators w' !!! model))
    /\ forall name' mt',
         g_results ns !! name' = Some mt' -> (score mt' <= score mt)%Q.

(** What the log may hold after line 41, for a target column [y0]: no
    further encoding of a target, and a split of the labels line 40 chose. *)
Definition after_target (y0 : Labels) (e : event) : Prop :=
  match e with
  | EncodeTarget _ => False
  | TrainTestSplit _ y _ _ stratify =>
      stratify = y
      /\ if target_needs_encoding y0
         then LabelEncoder_fit_transform y0 = inr y
         else y = y0
  | _ => True
  end.

End Evaluation.

(** ** What the script writes and when *)

Section Outputs.
Context {data : PyData}.

(** The files written at the end of the script (lines 148-155). *)
Definition final_paths : list string :=
  [ "data/X_train.csv"; "data/X_test.csv"; "data/y_train.csv";
    "data/y_test.csv"; "data/best_model.pkl"; "data/scaler.pkl" ].

(** Every path the script writes to (lines 64-65 and 148-155). *)
Definition output_paths : list string :=
  "data/X_train_original.csv" :: "data/X_test_original.csv" :: final_paths.

(** The calls made up to line 90: nothing of the comparison loop, no dump,
    no CSV but the two unscaled copies, no [fit] but the one of line 90. *)
Definition early_event (e : event) : Prop :=
  match e with
  | Predict _ | Score _ | PredictProba _ | Dump _ => False
  | ToCsv path => original_csv path = true
  | Fit model => model = 0
  | _ => True
  end.

End Outputs.

(** ** Where the script branches *)

(** A call of the log without the data it was given. *)
Inductive routine :=
| MakedirsCall (path : string)
| ReadExcelCall (path : string)
| EncodeTargetCall
| EncodeColumnCall (col : string)
| TrainTestSplitCall
| CopyCall (src dst : nat)
| ScalerFitTransformCall (X : nat)
| ScalerTransformCall (X : nat)
| ToCsvCall (path : string)
| GridSearchFitCall
| FitCall (model : nat)
| PredictCall (model : nat)
| ScoreCall (metric : string)
| PredictProbaCall (model : nat)
| DumpCall (path : string).

Section Branching.
Context {data : PyData} {lib : PyLib}.

Definition routine_of (e : event) : routine :=
  match e with
  | Makedirs path => MakedirsCall path
  | ReadExcel path => ReadExcelCall path
  | EncodeTarget _ => EncodeTargetCall
  | EncodeColumn col => EncodeColumnCall col
  | TrainTestSplit _ _ _ _ _ => TrainTestSplitCall
  | Copy src dst => CopyCall src dst
  | ScalerFitTransform X => ScalerFitTransformCall X
  | ScalerTransform X => ScalerTransformCall X
  | ToCsv path => ToCsvCall path
  | GridSearchFit _ => GridSearchFitCall
  | Fit model => FitCall model
  | Predict model => PredictCall model
  | Score metric => ScoreCall metric
  | PredictProba model => PredictProbaCall model
  | Dump path => DumpCall path
  end.

(** The calls of one turn of the comparison loop that raises nothing
    (lines 108-122); [proba] is the answer of [hasattr] on line 121. *)
Definition evaluation_routines (proba : bool) (model : ref) : list routine :=
  [FitCall model; PredictCall model; ScoreCall "Accuracy";
   ScoreCall "Precision"; ScoreCall "Recall"; ScoreCall "F1-score"]
  ++ (if proba then [PredictProbaCall model; ScoreCall "AUC-ROC"] else []).

(** The calls of a run that reaches the end of the script with every model
    evaluated: [encode] is the answer of the test of line 40, [cols] the
    categorical columns of line 44, [proba] the answers of line 121. *)
Definition script_routines (encode : bool) (cols : list string)
    (proba : ref -> bool) : list routine :=
  [MakedirsCall "data"; ReadExcelCall file_path]
  ++ (if encode then [EncodeTargetCall] else [])
  ++ map EncodeColumnCall cols
  ++ [TrainTestSplitCall; CopyCall 0 2; CopyCall 1 3;
      ScalerFitTransformCall 0; ScalerTransformCall 1;
      ToCsvCall "data/X_train_original.csv";
      ToCsvCall "data/X_test_original.csv";
      GridSearchFitCall; FitCall 0]
  ++ flat_map (fun nm => evaluation_routines (proba (snd nm)) (snd nm)) the_models
  ++ [ToCsvCall "data/X_train.csv"; ToCsvCall "data/X_test.csv";
      ToCsvCall "data/y_train.csv"; ToCsvCall "data/y_test.csv";
      DumpCall "data/best_model.pkl"; DumpCall "data/scaler.pkl"].

(** The [except] of line 133 caught nothing: every model of the dictionary
    has its entry. *)
Definition guard_caught_nothing (ns : Namespace) : Prop :=
  forall name model, (name, model) ∈ g_models ns -> is_Some (g_results ns !! name).

(** The loop of lines 45-47 runs over the same columns in both runs. *)
Definition same_categorical_columns (fs1 fs2 : gmap string file) : Prop :=
  forall d1 d2,
    read_excel fs1 file_path = inr d1 -> read_excel fs2 file_path = inr d2 ->
    select_dtypes_object (drop d1 [target_col])
    = select_dtypes_object (drop d2 [target_col]).

(** The reading of the specification's "no branching beyond existence
    checks and a single exception guard": two runs that pass the checks, in
    which the guard catches nothing and the loops run over the same columns,
    make the same calls. *)
Definition branches_only_on_checks_and_guard : Prop :=
  forall fs1 fs2 ds1 ds2 w1 w2 ns1 ns2,
    run fs1 ds1 = (w1, Returned ns1) ->
    run fs2 ds2 = (w2, Returned ns2) ->
    guard_caught_nothing ns1 -> guard_caught_nothing ns2 ->
    same_categorical_columns fs1 fs2 ->
    map routine_of (trace w1) = map routine_of (trace w2).

(** The paths the script may hand to the file system: it makes [data],
    reads the workbook of line 17 and writes its eight outputs. *)
Definition listed_access (e : event) : Prop :=
  match e with
  | Makedirs path => path = "data"
  | ReadExcel path => path = file_path
  | ToCsv path | Dump path => path ∈ output_paths
  | _ => True
  end.

End Branching.

(** ** A small stand-in library, to run the script on concrete inputs

    Frames are lists of integer columns, arrays are lists of columns, an
    estimator records its class, its parameters and how often it was fitted.
    The routines are simple stand-ins with the interface of the real ones;
    a [scenario] names the classifiers whose [fit] raises. *)

Module Toy.

Definition frame : Type := list (string * list Z).

Record estimator_state := {
  klass : string;
  params : kwargs;
  fitted : nat
}.

Record scenario := {
  failing : list string
}.

Definition data : PyData :=
  {| DataFrame := frame;
     Labels := list Z;
     NdArray := list (list Z);
     Estimator := estimator_state;
     Scaler := option (list Z);
     LibExc := string;
     DataFrame_inhabited := populate [];
     Estimator_inhabited := populate {| klass := ""; params := []; fitted := 0 |} |}.

Definition sheet : frame :=
  [ ("Age", [0; 1; 0; 1; 0; 1; 0; 1; 0; 1]%Z);
    ("Sex", [-1; -2; -1; -2; -1; -2; -1; -2; -1; -2]%Z);
    ("Diagnosis", [0; 1; 0; 1; 0; 1; 0; 1; 0; 1]%Z) ].

Definition workbook : @file data := Blob "sheet with target".
Definition workbook_without_target : @file data := Blob "sheet without target".

Definition t_read_excel (fs : gmap string (@file data)) (path : string)
    : string + frame :=
  match fs !! path with
  | Some (Blob "sheet with target") => inr sheet
  | Some (Blob "sheet without target") =>
      inr (filter (fun c => negb (String.eqb (fst c) "Diagnosis")) sheet)
  | _ => inl "not a workbook"
  end.

Definition t_getitem (df : frame) (col : string) : list Z :=
  match find (fun c => String.eqb (fst c) col) df with
  | Some c => snd c
  | None => []
  end.

Definition t_setitem (df : frame) (col : string) (v : list Z) : frame :=
  map (fun c => if String.eqb (fst c) col then (col, v) else c) df.

Definition t_drop (df : frame) (cols : list string) : frame :=
  filter (fun c => negb (existsb (String.eqb (fst c)) cols)) df.

(** Negative cells stand for strings. *)
Definition t_is_object (y : list Z) : bool := existsb (fun v => v <? 0)%Z y.

Fixpoint t_unique (y : list Z) : list Z :=
  match y with
  | [] => []
  | v :: rest => v :: filter (fun u => negb (u =? v)%Z) (t_unique rest)
  end.

Definition t_split (X : frame) (y : list Z) (test_size : Q) (seed : Z)
    (stratify : list Z) : string + (frame * frame * list Z * list Z) :=
  let n := length y in
  let n_train := (n - (n + 4) / 5)%nat in
  if (n <? 2)%nat then inl "too few samples"
  else inr (map (fun c => (fst c, take n_train (snd c))) X,
            map (fun c => (fst c, List.skipn n_train (snd c))) X,
            take n_train y, List.skipn n_train y).

(** The stand-in scaler subtracts the first cell of each training column; it
    overwrites the frame it is given. *)
Definition t_shift (offsets : list Z) (df : frame) : frame :=
  map (fun oc => (fst (snd oc), map (fun v => v - fst oc)%Z (snd (snd oc))))
      (combine offsets df).

Definition t_fit_transform (s : option (list Z)) (df : frame)
    : option (list Z) * frame * (string + list (list Z)) :=
  let offsets := map (fun c => hd 0%Z (snd c)) df in
  let out := t_shift offsets df in
  (Some offsets, out, inr (map snd out)).

Definition t_transform (s : option (list Z)) (df : frame)
    : option (list Z) * frame * (string + list (list Z)) :=
  match s with
  | None => (s, df, inl "scaler is not fitted")
  | Some offsets =>
      let out := t_shift offsets df in (s, out, inr (map snd out))
  end.

Definition t_param (p : kwargs) (name : string) : Z :=
  match find (fun kv => String.eqb (fst kv) name) p with
  | Some (_, PyInt n) => n
  | _ => 0%Z
  end.

(** The stand-in fold score prefers shallow trees and few leaves. *)
Definition t_fit_and_score (e : estimator_state) (X : list (list Z))
    (y : list Z) (scoring : string) (n_splits fold : nat) : Q :=
  (1 # Z.to_pos (1 + t_param (params e) "max_depth"
                   + t_param (params e) "num_leaves"
                   + Z.of_nat fold))%Q.

Definition t_fit (sc : scenario) (e : estimator_state) (X : list (list Z))
    (y : list Z) : estimator_state * option string :=
  ({| klass := klass e; params := params e; fitted := S (fitted e) |},
   if existsb (String.eqb (klass e)) (failing sc)
   then Some "fit failed" else None).

(** The stand-in SVC repeats the first feature, the others predict class 1. *)
Definition t_predict (e : estimator_state) (X : list (list Z))
    : string + list Z :=
  match X with
  | [] => inl "no features"
  | c :: _ => inr (if String.eqb (klass e) "SVC" then c else map (fun _ => 1%Z) c)
  end.

Definition t_predict_proba (e : estimator_state) (X : list (list Z))
    : string + list (list Z) :=
  match t_predict e X with
  | inl err => inl err
  | inr p => inr [map (fun v => 1 - v)%Z p; p]
  end.

Definition t_column (a : list (list Z)) (i : nat) : string + list (list Z) :=
  match a !! i with
  | Some c => inr [c]
  | None => inl "index out of bounds"
  end.

(** Share of the positions where the two vectors agree. *)
Definition t_agreement (y_true y_pred : list Z) : string + Q :=
  match y_true with
  | [] => inl "empty"
  | _ =>
      inr (Z.of_nat (length (filter (fun p => (fst p =? snd p)%Z)
                                    (combine y_true y_pred)))
           # Pos.of_nat (length y_true))%Q
  end.

Definition t_roc_auc (y_true : list Z) (p : list (list Z)) : string + Q :=
  match p with
  | [c] => t_agreement y_true c
  | _ => inl "bad shape"
  end.

Definition lib (sc : scenario) : @PyLib data :=
  {| read_excel := t_read_excel;
     columns := map fst;
     drop := t_drop;
     getitem := t_getitem;
     setitem := t_setitem;
     dtype_is_object := t_is_object;
     unique := t_unique;
     len := @length Z;
     select_dtypes_object :=
       fun df => map fst (filter (fun c => t_is_object (snd c)) df);
     DataFrame_of_array := fun a cols => combine cols a;
     DataFrame_of_labels := fun y => [("0", y)];
     LabelEncoder_fit_transform := fun y => inr (map Z.abs y);
     StandardScaler := None;
     StandardScaler_fit_transform := t_fit_transform;
     StandardScaler_transform := t_transform;
     train_test_split := t_split;
     set_params :=
       fun e kw => {| klass := klass e; params := kw ++ params e;
                      fitted := fitted e |};
     fit_and_score := t_fit_and_score;
     no_candidates := "empty grid";
     SVC := fun kw => {| klass := "SVC"; params := kw; fitted := 0 |};
     RandomForestClassifier :=
       fun kw => {| klass := "RandomForestClassifier"; params := kw; fitted := 0 |};
     LGBMClassifier :=
       fun kw => {| klass := "LGBMClassifier"; params := kw; fitted := 0 |};
     fit := t_fit sc;
     predict := t_predict;
     hasattr_predict_proba := fun _ => true;
     predict_proba := t_predict_proba;
     column := t_column;
     accuracy_score := t_agreement;
     precision_score := fun y p _ => t_agreement y p;
     recall_score := fun y p _ => t_agreement y p;
     f1_score := fun y p _ => t_agreement y p;
     roc_auc_score := t_roc_auc |}.

(** Every [fit] succeeds. *)
Definition calm : scenario := {| failing := [] |}.
(** The SVC cannot be fitted. *)
Definition svc_fails : scenario := {| failing := ["SVC"] |}.
(** LightGBM cannot be fitted, so the grid search raises. *)
Definition lgbm_fails : scenario := {| failing := ["LGBMClassifier"] |}.

Definition disk : gmap string (@file data) := {[ file_path := workbook ]}.
Definition disk_without_target : gmap string (@file data) :=
  {[ file_path := workbook_without_target ]}.

Abbreviation go sc fs := (@run data (lib sc) fs ∅) (only parsing).

(** The state at the head of the comparison loop in a small run. *)
Definition at_loop (sc : scenario) : @world data :=
  World disk ∅ []
    [ @lgbm data (lib sc); @svc data (lib sc); @random_forest data (lib sc) ]
    [].

Definition small_X_train : list (list Z) := [[0; 1; 0; 1]%Z].
Definition small_X_test : list (list Z) := [[0; 1]%Z].
Definition small_y_train : list Z := [0; 1; 0; 1]%Z.
Definition small_y_test : list Z := [0; 1]%Z.

(** The value a computation returned, or [d] when it raised. *)
Definition value_of {A} (d : A) (o : @outcome data A) : A :=
  match o with
  | Returned a => a
  | Raised _ => d
  end.

Definition no_search : SearchResult :=
  {| cv_results_ := []; best_params_ := []; best_estimator_ := 0 |}.

Definition no_namespace : @Namespace data :=
  @Build_Namespace data [] [] 0 0 [] [] [] [] None no_search 0 [] ∅.

(** The run in which every [fit] succeeds: its final state and the
    variables it ends with. *)
Definition calm_world : @world data := fst (go calm disk).
Definition calm_namespace : @Namespace data :=
  value_of no_namespace (snd (go calm disk)).

(** A grid search on the small training set. *)
Definition small_search : @world data * @outcome data SearchResult :=
  @GridSearchCV_fit data (lib calm) (@grid_search data (lib calm))
    small_X_train small_y_train (boot disk ∅).

(** The evaluation of the SVC when its [fit] raises. *)
Definition failed_evaluation : @world data * @outcome data Metrics :=
  @evaluate data (lib svc_fails) 1 small_X_train small_X_test
    small_y_train small_y_test (at_loop svc_fails).

(** A sheet with three diagnoses. *)
Definition sheet3 : frame :=
  [ ("Age", [0; 1; 2; 0; 1; 2; 0; 1; 2; 0]%Z);
    ("Sex", [-1; -2; -1; -2; -1; -2; -1; -2; -1; -2]%Z);
    ("Diagnosis", [0; 1; 2; 0; 1; 2; 0; 1; 2; 0]%Z) ].

(** Every file reads as the sheet [book]. *)
Definition t_read_book (book : frame) (fs : gmap string (@file data))
    (path : string) : string + frame :=
  match fs !! path with
  | Some _ => inr book
  | None => inl "not a workbook"
  end.

(** The stand-in library in which every [fit] succeeds, with another
    workbook, encoder and AUC. *)
Definition lib_with (book : frame) (encoder : list Z -> string + list Z)
    (auc : list Z -> list (list Z) -> string + Q) : @PyLib data :=
  {| read_excel := t_read_book book;
     columns := map fst;
     drop := t_drop;
     getitem := t_getitem;
     setitem := t_setitem;
     dtype_is_object := t_is_object;
     unique := t_unique;
     len := @length Z;
     select_dtypes_object :=
       fun df => map fst (filter (fun c => t_is_object (snd c)) df);
     DataFrame_of_array := fun a cols => combine cols a;
     DataFrame_of_labels := fun y => [("0", y)];
     LabelEncoder_fit_transform := encoder;
     StandardScaler := None;
     StandardScaler_fit_transform := t_fit_transform;
     StandardScaler_transform := t_transform;
     train_test_split := t_split;
     set_params :=
       fun e kw => {| klass := klass e; params := kw ++ params e;
                      fitted := fitted e |};
     fit_and_score := t_fit_and_score;
     no_candidates := "empty grid";
     SVC := fun kw => {| klass := "SVC"; params := kw; fitted := 0 |};
     RandomForestClassifier :=
       fun kw => {| klass := "RandomForestClassifier"; params := kw; fitted := 0 |};
     LGBMClassifier :=
       fun kw => {| klass := "LGBMClassifier"; params := kw; fitted := 0 |};
     fit := t_fit calm;
     predict := t_predict;
     hasattr_predict_proba := fun _ => true;
     predict_proba := t_predict_proba;
     column := t_column;
     accuracy_score := t_agreement;
     precision_score := fun y p _ => t_agreement y p;
     recall_score := fun y p _ => t_agreement y p;
     f1_score := fun y p _ => t_agreement y p;
     roc_auc_score := auc |}.

(** The encoder raises on every column. *)
Definition unencodable : @PyLib data :=
  lib_with sheet3 (fun _ => inl "unorderable values") t_roc_auc.

(** The AUC of a target with more than two classes cannot be computed from
    one column of probabilities. *)
Definition multiclass : @PyLib data :=
  lib_with sheet3 (fun y => inr (map Z.abs y))
    (fun _ _ => inl "multi_class must be in ('ovo', 'ovr')").

(** The run in which the grid search raises. *)
Definition stalled_world : @world data := fst (go lgbm_fails disk).

Definition no_metrics : Metrics :=
  {| Accuracy := 0; Precision := 0; Recall := 0; F1_score := 0;
     AUC_ROC := None |}.

(** The evaluation of the SVC when nothing raises. *)
Definition calm_evaluation : @world data * @outcome data Metrics :=
  @evaluate data (lib calm) 1 small_X_train small_X_test
    small_y_train small_y_test (at_loop calm).

(** A second workbook with two diagnoses. *)
Definition sheet_older : frame :=
  [ ("Age", [5; 6; 7; 8; 9; 5; 6; 7; 8; 9]%Z);
    ("Sex", [-2; -1; -2; -1; -2; -1; -2; -1; -2; -1]%Z);
    ("Diagnosis", [1; 0; 1; 0; 1; 0; 1; 0; 1; 0]%Z) ].

(** A library that reads three workbooks. *)
Definition t_read_archive (fs : gmap string (@file data)) (path : string)
    : string + frame :=
  match fs !! path with
  | Some (Blob "older patients") => inr sheet_older
  | Some (Blob "three diagnoses") => inr sheet3
  | _ => t_read_excel fs path
  end.

Definition archive : @PyLib data :=
  {| read_excel := t_read_archive;
     columns := map fst;
     drop := t_drop;
     getitem := t_getitem;
     setitem := t_setitem;
     dtype_is_object := t_is_object;
     unique := t_unique;
     len := @length Z;
     select_dtypes_object :=
       fun df => map fst (filter (fun c => t_is_object (snd c)) df);
     DataFrame_of_array := fun a cols => combine cols a;
     DataFrame_of_labels := fun y => [("0", y)];
     LabelEncoder_fit_transform := fun y => inr (map Z.abs y);
     StandardScaler := None;
     StandardScaler_fit_transform := t_fit_transform;
     StandardScaler_transform := t_transform;
     train_test_split := t_split;
     set_params :=
       fun e kw => {| klass := klass e; params := kw ++ params e;
                      fitted := fitted e |};
     fit_and_score := t_fit_and_score;
     no_candidates := "empty grid";
     SVC := fun kw => {| klass := "SVC"; params := kw; fitted := 0 |};
     RandomForestClassifier :=
       fun kw => {| klass := "RandomForestClassifier"; params := kw; fitted := 0 |};
     LGBMClassifier :=
       fun kw => {| klass := "LGBMClassifier"; params := kw; fitted := 0 |};
     fit := t_fit calm;
     predict := t_predict;
     hasattr_predict_proba := fun _ => true;
     predict_proba := t_predict_proba;
     column := t_column;
     accuracy_score := t_agreement;
     precision_score := fun y p _ => t_agreement y p;
     recall_score := fun y p _ => t_agreement y p;
     f1_score := fun y p _ => t_agreement y p;
     roc_auc_score := t_roc_auc |}.

Definition disk_older : gmap string (@file data) :=
  {[ file_path := Blob "older patients" ]}.
Definition disk_ternary : gmap string (@file data) :=
  {[ file_path := Blob "three diagnoses" ]}.

(** The runs on the three workbooks. *)
Definition binary_world : @world data := fst (@run data archive disk ∅).
Definition binary_namespace : @Namespace data :=
  value_of no_namespace (snd (@run data archive disk ∅)).
Definition older_world : @world data := fst (@run data archive disk_older ∅).
Definition older_namespace : @Namespace data :=
  value_of no_namespace (snd (@run data archive disk_older ∅)).
Definition ternary_world : @world data := fst (@run data archive disk_ternary ∅).
Definition ternary_namespace : @Namespace data :=
  value_of no_namespace (snd (@run data archive disk_ternary ∅)).

End Toy.

(** * Properties of the script *)

Section Proofs.
Context {data : PyData} {lib : PyLib}.

(** ** The monad *)

Lemma bind_raised {A B} (m : M A) (k : A -> M B) w w' e :
  bind m k w = (w', Raised e) ->
  m w = (w', Raised e) \/
  exists w1 a, m w = (w1, Returned a) /\ k a w1 = (w', Raised e).
Proof.
  unfold bind. destruct (m w) as [w1 [a|e1]]; intros Hk.
  - right. eauto.
  - left. congruence.
Qed.

(** ** Only library calls raise after the checks *)

Lemma rol_ret {A} (a : A) : raises_only_library (ret a).
Proof. intros w w' e Hr. discriminate. Qed.

Lemma rol_bind {A B} (m : M A) (k : A -> M B) :
  raises_only_library m -> (forall a, raises_only_library (k a)) ->
  raises_only_library (bind m k).
Proof.
  intros Hm Hk w w' e Hr. apply bind_raised in Hr as [Hr | (w1 & a & _ & Hr)].
  - eapply Hm, Hr.
  - eapply Hk, Hr.
Qed.

Lemma rol_lift {A} (r : libres A) : raises_only_library (lift r).
Proof.
  intros w w' e. destruct r as [le|a]; cbn; intros Hr; [|discriminate].
  injection Hr as _ <-. eauto.
Qed.

Lemma rol_total {A} (m : M A) :
  (forall w, exists w' a, m w = (w', Returned a)) -> raises_only_library m.
Proof. intros Hm w w' e Hr. destruct (Hm w) as (w1 & a & Ha). congruence. Qed.

Lemma rol_get : raises_only_library get.
Proof. apply rol_total. intros w. unfold get. eauto. Qed.

Lemma rol_modify f : raises_only_library (modify f).
Proof. apply rol_total. intros w. unfold modify. eauto. Qed.

Lemma rol_new_frame df : raises_only_library (new_frame df).
Proof. apply rol_total. intros w. unfold new_frame. eauto. Qed.

Lemma rol_new_estimator m : raises_only_library (new_estimator m).
Proof. apply rol_total. intros w. unfold new_estimator. eauto. Qed.

Lemma rol_try {A} (body : M A) (handler : exception -> M A) :
  (forall e, raises_only_library (handler e)) ->
  raises_only_library (try_except body handler).
Proof.
  intros Hh w w' e. unfold try_except.
  destruct (body w) as [w1 [a|e1]]; intros Hr; [discriminate|].
  eapply Hh, Hr.
Qed.

Ltac rol_step :=
  lazymatch goal with
  | |- raises_only_library (bind _ _) => apply rol_bind; [|intros ?]
  | |- raises_only_library (ret _) => apply rol_ret
  | |- raises_only_library (lift _) => apply rol_lift
  | |- raises_only_library get => apply rol_get
  | |- raises_only_library (modify _) => apply rol_modify
  | |- raises_only_library (new_frame _) => apply rol_new_frame
  | |- raises_only_library (new_estimator _) => apply rol_new_estimator
  | |- raises_only_library (raise (LibraryError _)) =>
      let Hr := fresh in intros ? ? ? Hr; injection Hr as _ <-; eauto
  | |- raises_only_library (try_except _ _) => apply rol_try; intros ?
  | |- raises_only_library (match ?x with _ => _ end) => destruct x
  | |- raises_only_library (if ?b then _ else _) => destruct b
  end.

Ltac rol :=
  unfold evaluate, split, encode_target, copy, frame_to_csv, to_csv,
    dump_estimator, dump_scaler, scaler_fit_transform, scaler_transform,
    model_fit, model_predict, call, log;
  repeat rol_step.

Lemma rol_encode_columns cols X : raises_only_library (encode_columns cols X).
Proof. revert X. induction cols as [|col rest IH]; intros X; cbn; rol. apply IH. Qed.

Lemma rol_train_and_evaluate models X_train X_test y_train y_test results :
  raises_only_library
    (train_and_evaluate models X_train X_test y_train y_test results).
Proof.
  revert results. induction models as [|[name model] rest IH]; intros results; cbn; rol.
  apply IH.
Qed.

Lemma rol_GridSearchCV_fit gs X y : raises_only_library (GridSearchCV_fit gs X y).
Proof. unfold GridSearchCV_fit. rol. Qed.

Lemma rol_train dataset : raises_only_library (train dataset).
Proof.
  unfold train. rol;
    first [ apply rol_encode_columns | apply rol_GridSearchCV_fit
          | apply rol_train_and_evaluate ].
Qed.

(** ** The two checks around the load (lines 20-33) *)

Lemma exists_after_makedirs fs ds fr es t :
  exists_on_disk (World fs ({["data"]} ∪ ds) fr es t) file_path = true
  <-> is_Some (fs !! file_path) \/ file_path ∈ ds.
Proof.
  unfold exists_on_disk. cbn [files dirs].
  rewrite orb_true_iff, !bool_decide_eq_true, elem_of_union, elem_of_singleton.
  split; intros [Hfile | Hdir]; auto.
  destruct Hdir as [Hdata | Hdir]; [discriminate Hdata | auto].
Qed.

Lemma load_missing fs ds :
  fs !! file_path = None -> file_path ∉ ds ->
  exists msg,
    load (boot fs ds)
    = (World fs ({["data"]} ∪ ds) [] [] [Makedirs "data"],
       Raised (FileNotFoundError msg)).
Proof.
  intros Hnone Hdir. eexists.
  cbv [load makedirs path_exists bind log modify get ret raise boot
       set_trace set_dirs files dirs frames estimators trace app].
  destruct (exists_on_disk _ file_path) eqn:Hfound; [|reflexivity].
  apply exists_after_makedirs in Hfound as [[f Hfile] | Hin].
  - congruence.
  - contradiction.
Qed.

Lemma load_present fs ds :
  is_Some (fs !! file_path) ->
  load (boot fs ds)
  = let w := World fs ({["data"]} ∪ ds) [] [] [Makedirs "data"; ReadExcel file_path] in
    match read_excel fs file_path with
    | inl e => (w, Raised (LibraryError e))
    | inr dataset =>
        if bool_decide (target_col ∈ columns dataset)
        then (w, Returned dataset)
        else (w, Raised (ValueError ("❌ La colonne cible '" +:+ target_col
                                      +:+ "' est introuvable dans le dataset.")))
    end.
Proof.
  intros Hsome.
  cbv [load makedirs path_exists pd_read_excel call lift bind log modify get
       ret raise boot set_trace set_dirs files dirs frames estimators trace app].
  rewrite (proj2 (exists_after_makedirs fs ds [] [] [Makedirs "data"]))
    by (left; exact Hsome).
  cbn [negb].
  destruct (read_excel fs file_path) as [e|dataset]; [reflexivity|].
  destruct (bool_decide (target_col ∈ columns dataset)); reflexivity.
Qed.

(** ** One evaluation (lines 108-131) *)

(** Case analysis on a scrutinee that contains no other case analysis. *)
Ltac destruct_innermost :=
  match goal with
  | |- context [match ?x with _ => _ end] =>
      lazymatch x with
      | context [match _ with _ => _ end] => fail
      | _ => destruct x eqn:?
      end
  end.

Ltac run_evaluate :=
  cbv [evaluate model_fit model_predict call lift log modify get bind ret raise
       set_trace set_estimators files dirs frames estimators trace fst snd];
  repeat (destruct_innermost; cbv beta iota).

(** Whatever happens, the estimator has been refitted in place, nothing
    else has changed, and the log has grown by the [fit] and by calls of the
    evaluation. *)
Lemma evaluate_world model X_train X_test y_train y_test w :
  exists evs,
    fst (evaluate model X_train X_test y_train y_test w)
    = World (files w) (dirs w) (frames w)
        (<[model := fst (fit (estimators w !!! model) X_train y_train)]>
           (estimators w))
        (trace w ++ Fit model :: evs)
    /\ Forall evaluation_event evs.
Proof.
  destruct w as [fs ds fr es t].
  run_evaluate;
    rewrite <- ?app_assoc; cbn [app];
    (eexists; split; [reflexivity | repeat constructor]).
Qed.

(** When the evaluation returns, [fit] did not raise and the metrics are
    those of the refitted estimator on the test set. *)
Lemma evaluate_returned model X_train X_test y_train y_test w w' mt :
  evaluate model X_train X_test y_train y_test w = (w', Returned mt) ->
  snd (fit (estimators w !!! model) X_train y_train) = None
  /\ scored (estimators w' !!! model) X_test y_test mt.
Proof.
  intros Hret.
  destruct (evaluate_world model X_train X_test y_train y_test w) as (evs & Hw & _).
  rewrite Hret in Hw. cbn [fst] in Hw. rewrite Hw. cbn [estimators].
  clear Hw evs. revert Hret. destruct w as [fs ds fr es t].
  run_evaluate; intros Hret; try discriminate;
    injection Hret as _ <-; unfold scored, auc_entry;
    cbn [snd Accuracy Precision Recall F1_score AUC_ROC];
    (split; [reflexivity|]);
    repeat match goal with
           | Hb : hasattr_predict_proba _ = _ |- _ => rewrite Hb
           end;
    repeat first [eassumption | reflexivity | esplit].
Qed.

(** ** The comparison loop (lines 105-134) *)

Lemma train_and_evaluate_cons name model rest X_train X_test y_train y_test
    results w :
  train_and_evaluate ((name, model) :: rest) X_train X_test y_train y_test
    results w
  = match evaluate model X_train X_test y_train y_test w with
    | (w1, Returned metrics) =>
        train_and_evaluate rest X_train X_test y_train y_test
          (<[name := metrics]> results) w1
    | (w1, Raised _) =>
        train_and_evaluate rest X_train X_test y_train y_test results w1
    end.
Proof.
  cbn [train_and_evaluate]. unfold bind at 1. unfold try_except, bind, ret.
  destruct (evaluate model X_train X_test y_train y_test w) as [w1 [mt|e]];
    reflexivity.
Qed.

Lemma evaluation_is_comparison evs :
  Forall evaluation_event evs -> Forall comparison_event evs.
Proof.
  intros Hevs. eapply Forall_impl; [exact Hevs|]. intros []; cbn; tauto.
Qed.

Lemma fitted_models_evaluation evs :
  Forall evaluation_event evs -> fitted_models evs = [].
Proof.
  unfold fitted_models. induction 1 as [|e evs He _ IH]; [reflexivity|].
  destruct e; cbn in He |- *; try contradiction; exact IH.
Qed.

Lemma fitted_models_app t1 t2 :
  fitted_models (t1 ++ t2) = fitted_models t1 ++ fitted_models t2.
Proof. unfold fitted_models. apply omap_app. Qed.

(** The loop never raises; it only refits estimators and appends to the
    log: one [fit] per model, in the order of the dictionary. *)
Lemma train_and_evaluate_total models X_train X_test y_train y_test :
  forall results w,
  exists w' results' evs,
    train_and_evaluate models X_train X_test y_train y_test results w
    = (w', Returned results')
    /\ files w' = files w /\ dirs w' = dirs w /\ frames w' = frames w
    /\ length (estimators w') = length (estimators w)
    /\ trace w' = trace w ++ evs
    /\ Forall comparison_event evs
    /\ fitted_models evs = map snd models.
Proof.
  induction models as [|[name model] rest IH]; intros results w.
  - exists w, results, []. cbn. rewrite app_nil_r. repeat split; constructor.
  - rewrite train_and_evaluate_cons.
    destruct (evaluate_world model X_train X_test y_train y_test w)
      as (evs1 & Hw & Hevs1).
    destruct (evaluate model X_train X_test y_train y_test w) as [w1 o].
    cbn [fst] in Hw. subst w1.
    set (w1 := World _ _ _ _ _).
    assert (Hnext : forall res, exists w' results' evs,
      train_and_evaluate rest X_train X_test y_train y_test res w1
      = (w', Returned results')
      /\ files w' = files w /\ dirs w' = dirs w /\ frames w' = frames w
      /\ length (estimators w') = length (estimators w)
      /\ trace w' = trace w ++ evs
      /\ Forall comparison_event evs
      /\ fitted_models evs = model :: map snd rest).
    { intros res.
      destruct (IH res w1) as (w' & res' & evs2 & Hrun & Hf & Hd & Hfr & Hlen & Ht & Hc & Hfit).
      exists w', res', (Fit model :: evs1 ++ evs2).
      subst w1. cbn [files dirs frames estimators trace] in *.
      rewrite length_insert in Hlen.
      repeat split; try assumption.
      - rewrite Ht, <- app_assoc. reflexivity.
      - constructor; [exact I|]. apply Forall_app. split; [|exact Hc].
        apply evaluation_is_comparison, Hevs1.
      - change (Fit model :: evs1 ++ evs2) with ([Fit model] ++ evs1 ++ evs2).
        rewrite !fitted_models_app, Hfit, (fitted_models_evaluation evs1 Hevs1).
        reflexivity. }
    destruct o as [mt|e]; apply Hnext.
Qed.

(** What the loop leaves in the estimator store: an estimator of the
    dictionary has been refitted once, the others are untouched. *)
Lemma train_and_evaluate_estimators models X_train X_test y_train y_test :
  forall results w w' results',
  NoDup (map snd models) ->
  train_and_evaluate models X_train X_test y_train y_test results w
  = (w', Returned results') ->
  forall r,
    (r ∈ map snd models -> r < length (estimators w) ->
     estimators w' !!! r = fst (fit (estimators w !!! r) X_train y_train))
    /\ (r ∉ map snd models -> estimators w' !!! r = estimators w !!! r).
Proof.
  induction models as [|[name model] rest IH]; intros results w w' results' Hnd Hrun r.
  - cbn in Hrun. injection Hrun as <- <-. split; [|reflexivity].
    intros Hin. cbn in Hin. apply elem_of_nil in Hin. contradiction.
  - rewrite train_and_evaluate_cons in Hrun.
    destruct (evaluate_world model X_train X_test y_train y_test w)
      as (evs1 & Hw & _).
    destruct (evaluate model X_train X_test y_train y_test w) as [w1 o].
    cbn [fst] in Hw.
    cbn [map snd] in Hnd. apply NoDup_cons in Hnd as [Hnotin Hnd].
    assert (Hrest : exists res,
      train_and_evaluate rest X_train X_test y_train y_test res w1
      = (w', Returned results')) by (destruct o; eauto).
    destruct Hrest as [res Hrest].
    destruct (IH res w1 w' results' Hnd Hrest r) as [IHin IHout].
    assert (Hest : estimators w1
                   = <[model := fst (fit (estimators w !!! model) X_train y_train)]>
                       (estimators w)) by (rewrite Hw; reflexivity).
    cbn [map snd]. split.
    + intros Hin Hlt. apply elem_of_cons in Hin as [-> | Hin].
      * rewrite (IHout Hnotin), Hest.
        apply list_lookup_total_insert_eq. exact Hlt.
      * assert (model <> r) by (intros ->; contradiction).
        rewrite IHin; [|exact Hin|rewrite Hest, length_insert; exact Hlt].
        rewrite Hest, list_lookup_total_insert_ne by assumption. reflexivity.
    + intros Hout. apply not_elem_of_cons in Hout as [Hne Hout].
      rewrite (IHout Hout), Hest.
      apply list_lookup_total_insert_ne. congruence.
Qed.

(** What the loop leaves in [results]: an entry is either the one that was
    there before the loop or the metrics of a model of the dictionary. *)
Lemma train_and_evaluate_results models X_train X_test y_train y_test :
  forall results w w' results',
  NoDup (map snd models) ->
  train_and_evaluate models X_train X_test y_train y_test results w
  = (w', Returned results') ->
  forall name,
    results' !! name = results !! name
    \/ exists model mt,
         (name, model) ∈ models /\ results' !! name = Some mt
         /\ scored (estimators w' !!! model) X_test y_test mt.
Proof.
  induction models as [|[name0 model] rest IH]; intros results w w' results' Hnd Hrun name.
  - cbn in Hrun. injection Hrun as <- <-. left. reflexivity.
  - rewrite train_and_evaluate_cons in Hrun.
    cbn [map snd] in Hnd. apply NoDup_cons in Hnd as [Hnotin Hnd].
    destruct (evaluate model X_train X_test y_train y_test w) as [w1 [mt|e]] eqn:Hev.
    + destruct (IH _ _ _ _ Hnd Hrun name) as [Hsame | (r & mt' & Hin & Hres & Hsc)].
      * destruct (decide (name0 = name)) as [-> | Hne].
        -- right. exists model, mt. rewrite Hsame, lookup_insert_eq.
           repeat split; [apply elem_of_cons; left; reflexivity|].
           apply evaluate_returned in Hev as [_ Hsc].
           destruct (train_and_evaluate_estimators _ _ _ _ _ _ _ _ _ Hnd Hrun model)
             as [_ Hkeep].
           rewrite (Hkeep Hnotin). exact Hsc.
        -- left. rewrite Hsame. apply lookup_insert_ne. exact Hne.
      * right. exists r, mt'. repeat split; try assumption.
        apply elem_of_cons. right. exact Hin.
    + destruct (IH _ _ _ _ Hnd Hrun name) as [Hsame | (r & mt' & Hin & Hres & Hsc)].
      * left. exact Hsame.
      * right. exists r, mt'. repeat split; try assumption.
        apply elem_of_cons. right. exact Hin.
Qed.

Lemma train_and_evaluate_app before after X_train X_test y_train y_test :
  forall results w,
  train_and_evaluate (before ++ after) X_train X_test y_train y_test results w
  = match train_and_evaluate before X_train X_test y_train y_test results w with
    | (w1, Returned results1) =>
        train_and_evaluate after X_train X_test y_train y_test results1 w1
    | (w1, Raised e) => (w1, Raised e)
    end.
Proof.
  induction before as [|[name model] rest IH]; intros results w.
  - reflexivity.
  - cbn [app]. rewrite !train_and_evaluate_cons.
    destruct (evaluate model X_train X_test y_train y_test w) as [w1 [mt|e]];
      apply IH.
Qed.

(** The loop only adds entries under the names of the dictionary. *)
Lemma train_and_evaluate_other_names models X_train X_test y_train y_test :
  forall results w w' results' name,
  train_and_evaluate models X_train X_test y_train y_test results w
  = (w', Returned results') ->
  name ∉ map fst models ->
  results' !! name = results !! name.
Proof.
  induction models as [|[name0 model] rest IH]; intros results w w' results' name Hrun Hout.
  - cbn in Hrun. injection Hrun as <- <-. reflexivity.
  - rewrite train_and_evaluate_cons in Hrun.
    cbn [map fst] in Hout. apply not_elem_of_cons in Hout as [Hne Hout].
    destruct (evaluate model X_train X_test y_train y_test w) as [w1 [mt|e]].
    + rewrite (IH _ _ _ _ _ Hrun Hout). apply lookup_insert_ne. congruence.
    + apply (IH _ _ _ _ _ Hrun Hout).
Qed.

(** C3: in the comparison loop, when fitting or evaluating a model raises,
    the exception is swallowed: the loop goes on with the remaining models
    from the state the failed evaluation left, with the results as they
    were; the loop itself returns, every remaining model is fitted, and the
    failed model has no entry in the final results. *)
Theorem failing_model_is_skipped
    (before after : list (string * ref)) (name : string) (model : ref)
    (X_train X_test : NdArray) (y_train y_test : Labels)
    (w w1 w2 : world) (results1 : gmap string Metrics) (e : exception) :
  train_and_evaluate before X_train X_test y_train y_test ∅ w
  = (w1, Returned results1) ->
  evaluate model X_train X_test y_train y_test w1 = (w2, Raised e) ->
  name ∉ map fst before -> name ∉ map fst after ->
  train_and_evaluate (before ++ (name, model) :: after)
    X_train X_test y_train y_test ∅ w
  = train_and_evaluate after X_train X_test y_train y_test results1 w2
  /\ exists w3 results3 evs,
       train_and_evaluate after X_train X_test y_train y_test results1 w2
       = (w3, Returned results3)
       /\ results3 !! name = None
       /\ trace w3 = trace w2 ++ evs
       /\ fitted_models evs = map snd after.
Proof.
  intros Hbefore Hraise Hnb Hna. split.
  - rewrite train_and_evaluate_app, Hbefore, train_and_evaluate_cons, Hraise.
    reflexivity.
  - destruct (train_and_evaluate_total after X_train X_test y_train y_test
                results1 w2)
      as (w3 & results3 & evs & Hrun & _ & _ & _ & _ & Htrace & _ & Hfit).
    exists w3, results3, evs. repeat split; try assumption.
    rewrite (train_and_evaluate_other_names _ _ _ _ _ _ _ _ _ _ Hrun Hna).
    rewrite (train_and_evaluate_other_names _ _ _ _ _ _ _ _ _ _ Hbefore Hnb).
    apply lookup_empty.
Qed.

(** ** The order of the stages *)

Section Ascending.
Variable stage : event -> option nat.

Lemma ascending_weaken lo hi lo' hi' t :
  ascending stage lo hi t -> lo' <= lo -> hi <= hi' -> ascending stage lo' hi' t.
Proof.
  revert lo lo'. induction t as [|e t IH]; intros lo lo'; cbn; [lia|].
  destruct (stage e) as [s|].
  - intros [Hlo Ht] Hlo' Hhi. split; [lia|]. eapply IH; [exact Ht|lia|lia].
  - apply IH.
Qed.

Lemma ascending_app a b c t1 t2 :
  ascending stage a b t1 -> ascending stage b c t2 ->
  ascending stage a c (t1 ++ t2).
Proof.
  revert a. induction t1 as [|e t1 IH]; intros a; cbn.
  - intros Hab Ht2. eapply ascending_weaken; [exact Ht2|lia|lia].
  - destruct (stage e) as [s|].
    + intros [Ha Ht1] Ht2. split; [exact Ha|]. apply IH; assumption.
    + apply IH.
Qed.

Lemma ascending_lookup lo hi t j e s :
  ascending stage lo hi t -> t !! j = Some e -> stage e = Some s ->
  lo <= s.
Proof.
  revert lo j. induction t as [|e0 t IH]; intros lo j; cbn; [discriminate 2|].
  destruct j as [|j]; cbn.
  - intros Ht [= ->] Hs. rewrite Hs in Ht. tauto.
  - intros Ht Hj Hs. destruct (stage e0) as [s0|].
    + destruct Ht as [Hlo Ht]. pose proof (IH _ _ Ht Hj Hs). lia.
    + eapply IH; eassumption.
Qed.

Lemma ascending_in_stage_order lo hi t :
  ascending stage lo hi t -> in_stage_order stage t.
Proof.
  revert lo. induction t as [|e0 t IH]; intros lo Ht i j e1 e2 s1 s2 Hij Hi Hj Hs1 Hs2.
  - discriminate.
  - destruct j as [|j]; [lia|]. cbn in Hj. cbn in Ht.
    destruct i as [|i]; cbn in Hi.
    + injection Hi as ->. rewrite Hs1 in Ht. destruct Ht as [_ Ht].
      eapply ascending_lookup; eassumption.
    + assert (Ht' : exists lo', ascending stage lo' hi t)
        by (destruct (stage e0); [destruct Ht|]; eauto).
      destruct Ht' as [lo' Ht'].
      eapply (IH lo' Ht' i j); try eassumption. lia.
Qed.

End Ascending.

Lemma comparison_events_ascending lo evs :
  lo <= 6 -> Forall comparison_event evs -> ascending stage_of lo 6 evs.
Proof.
  intros Hlo Hevs. revert lo Hlo.
  induction Hevs as [|e evs He _ IH]; intros lo Hlo; cbn; [exact Hlo|].
  destruct e; cbn in He |- *; try contradiction; (split; [exact Hlo|]); apply IH; lia.
Qed.

(** *** What each operation appends to the log *)

Abbreviation stays lo hi := (emits (ascending stage_of lo hi)) (only parsing).

Lemma stays_bind {A B} (m : M A) (k : A -> M B) a b c :
  stays a b m -> (forall x, stays b c (k x)) -> b <= c -> stays a c (bind m k).
Proof.
  intros Hm Hk Hbc w. unfold bind.
  destruct (Hm w) as (evs1 & Ht1 & Hasc1).
  destruct (m w) as [w1 [x|e]]; cbn [fst] in *.
  - destruct (Hk x w1) as (evs2 & Ht2 & Hasc2).
    exists (evs1 ++ evs2). rewrite Ht2, Ht1, app_assoc. split; [reflexivity|].
    eapply ascending_app; eassumption.
  - exists evs1. split; [exact Ht1|].
    eapply ascending_weaken; [exact Hasc1|lia|lia].
Qed.

Lemma stays_silent {A} (m : M A) lo :
  (forall w, trace (fst (m w)) = trace w) -> stays lo lo m.
Proof.
  intros Hm w. exists []. rewrite app_nil_r. split; [apply Hm|]. cbn. lia.
Qed.

Lemma stays_log e lo s :
  stage_of e = Some s -> lo <= s -> stays lo s (log e).
Proof.
  intros Hs Hlo w. exists [e]. split; [reflexivity|]. cbn. rewrite Hs. lia.
Qed.

Lemma stays_log_unstaged e lo : stage_of e = None -> stays lo lo (log e).
Proof.
  intros Hs w. exists [e]. split; [reflexivity|]. cbn. rewrite Hs. lia.
Qed.

Lemma stays_weaken {A} (m : M A) lo hi hi' :
  stays lo hi m -> hi <= hi' -> stays lo hi' m.
Proof.
  intros Hm Hle w. destruct (Hm w) as (evs & Ht & Hasc).
  exists evs. split; [exact Ht|]. eapply ascending_weaken; [exact Hasc|lia|lia].
Qed.

Ltac silent :=
  first [ apply stays_silent; intros [? ? ? ? ?]; reflexivity
        | eapply stays_weaken;
          [apply stays_silent; intros [? ? ? ? ?]; reflexivity | lia] ].

Ltac logged :=
  first [ apply stays_log_unstaged; reflexivity
        | apply stays_log; [reflexivity | lia]
        | eapply stays_weaken;
          [ first [ apply stays_log_unstaged; reflexivity
                  | apply stays_log; [reflexivity | lia] ]
          | lia ] ].

Ltac stays_step :=
  lazymatch goal with
  | |- emits _ (bind _ _) => eapply stays_bind; [|intros ?|]
  | |- emits _ (ret _) => silent
  | |- emits _ (log ?e) => logged
  | |- emits _ (lift ?r) => destruct r; silent
  | |- emits _ (raise _) => silent
  | |- emits _ get => silent
  | |- emits _ (modify (set_files _)) => silent
  | |- emits _ (modify (set_dirs _)) => silent
  | |- emits _ (modify (set_frames _)) => silent
  | |- emits _ (modify (set_estimators _)) => silent
  | |- emits _ (new_frame _) => silent
  | |- emits _ (new_estimator _) => silent
  | |- emits _ (match ?x with _ => _ end) => destruct x
  | |- _ <= _ => lia
  end.

Ltac stays_with known :=
  unfold load, split, copy, frame_to_csv, to_csv,
    dump_estimator, dump_scaler, scaler_fit_transform, scaler_transform,
    model_fit, model_predict, makedirs, path_exists, pd_read_excel, call;
  repeat first [known | stays_step].

Ltac stays := stays_with fail.

Lemma stays_load : stays 0 0 load.
Proof. stays. Qed.

Lemma stays_encode_target y lo : lo <= 1 -> stays lo 1 (encode_target y).
Proof. intros Hlo. unfold encode_target. stays. Qed.

Lemma stays_encode_columns cols X lo : lo <= 1 -> stays lo 1 (encode_columns cols X).
Proof.
  revert X lo. induction cols as [|col rest IH]; intros X lo Hlo; cbn; stays.
  apply IH. lia.
Qed.

Lemma stays_GridSearchCV_fit gs X y lo : lo <= 5 -> stays lo 5 (GridSearchCV_fit gs X y).
Proof. intros Hlo. unfold GridSearchCV_fit. stays. Qed.

Lemma stays_train_and_evaluate models X_train X_test y_train y_test results lo :
  lo <= 6 ->
  stays lo 6 (train_and_evaluate models X_train X_test y_train y_test results).
Proof.
  intros Hlo w.
  destruct (train_and_evaluate_total models X_train X_test y_train y_test results w)
    as (w' & results' & evs & Hrun & _ & _ & _ & _ & Htrace & Hevs & _).
  exists evs. rewrite Hrun. split; [exact Htrace|].
  apply comparison_events_ascending; assumption.
Qed.

Lemma stays_train dataset : stays 0 7 (train dataset).
Proof.
  unfold train.
  stays_with ltac:(first [ apply stays_encode_target; lia
                         | apply stays_encode_columns; lia
                         | apply stays_GridSearchCV_fit; lia
                         | apply stays_train_and_evaluate; lia ]).
Qed.

Lemma stays_main : stays 0 7 main.
Proof.
  unfold main.
  eapply stays_bind; [apply stays_load|intros dataset; apply stays_train|lia].
Qed.

(** C4, as the code orders the stages: in every run, whether it completes or
    raises, the library calls come in the order load, encode, split, scale,
    write the two unscaled copies, grid search, fit and evaluate, save; no
    call of a stage comes after a call of a later one. *)
Theorem stages_run_in_order (fs : gmap string file) (ds : gset string) :
  in_stage_order stage_of (trace (fst (run fs ds))).
Proof.
  unfold run. destruct (stays_main (boot fs ds)) as (evs & Htrace & Hasc).
  rewrite Htrace. cbn [boot trace app].
  eapply ascending_in_stage_order, Hasc.
Qed.

(** ** A completed run, step by step *)

Lemma encode_columns_world cols :
  forall X w,
  exists evs,
    fst (encode_columns cols X w) = set_trace (fun t => t ++ evs) w
    /\ Forall column_event evs.
Proof.
  induction cols as [|col rest IH]; intros X [fs ds fr es t].
  - exists []. unfold set_trace. cbn [encode_columns ret fst files dirs frames
                                       estimators trace].
    rewrite app_nil_r. split; [reflexivity|constructor].
  - cbn [encode_columns].
    cbv [call log modify lift bind ret raise set_trace files dirs frames
         estimators trace].
    destruct (LabelEncoder_fit_transform (getitem X col)) as [e|v]; cbv beta iota.
    + exists [EncodeColumn col]. split; [reflexivity|]. repeat constructor.
    + destruct (IH (setitem X col v) (World fs ds fr es (t ++ [EncodeColumn col])))
        as (evs & Hw & Hevs).
      exists (EncodeColumn col :: evs). rewrite Hw. unfold set_trace.
      cbn [files dirs frames estimators trace]. rewrite <- app_assoc.
      split; [reflexivity|]. constructor; [exact I|exact Hevs].
Qed.

Lemma GridSearchCV_fit_returned gs X y w w1 search :
  GridSearchCV_fit gs X y w = (w1, Returned search) ->
  exists m,
    fit (set_params (estimator gs) (best_params_ search)) X y = (m, None)
    /\ cv_results_ search = search_table gs X y
    /\ (exists row rows,
          search_table gs X y = row :: rows
          /\ best_params_ search = fst (best_row row rows))
    /\ best_estimator_ search = length (estimators w)
    /\ w1 = World (files w) (dirs w) (frames w) (estimators w ++ [m])
              (trace w ++ [GridSearchFit gs]).
Proof.
  destruct w as [fs ds fr es t].
  unfold GridSearchCV_fit. fold (search_table gs X y).
  destruct (search_table gs X y) as [|row rows] eqn:Htable.
  - cbv [bind log modify raise]. discriminate.
  - cbv [bind log modify raise ret new_estimator set_trace set_estimators
         files dirs frames estimators trace].
    destruct (fit _ X y) as [m [e|]] eqn:Hfit; [discriminate|].
    intros Hret. injection Hret as <- <-. cbn [best_params_ cv_results_ best_estimator_].
    exists m. repeat split; try assumption; eauto.
Qed.

Ltac destruct_innermost_in H :=
  match type of H with
  | context [match ?x with _ => _ end] =>
      lazymatch x with
      | context [match _ with _ => _ end] => fail
      | _ => destruct x eqn:?
      end
  end.

Lemma store_head {A} `{Inhabited A} (x : A) l : (x :: l) !!! 0 = x.
Proof. reflexivity. Qed.

Lemma store_tail {A} `{Inhabited A} (x : A) l i : (x :: l) !!! S i = l !!! i.
Proof. reflexivity. Qed.

Lemma store_set_head {A} (x y : A) l : <[0 := x]> (y :: l) = x :: l.
Proof. reflexivity. Qed.

Lemma store_set_tail {A} (x y : A) l i :
  <[S i := x]> (y :: l) = y :: <[i := x]> l.
Proof. reflexivity. Qed.

Ltac store_simpl :=
  cbn [app length] in *;
  repeat (rewrite ?store_head, ?store_tail, ?store_set_head, ?store_set_tail in * );
  cbn [app length] in *.

Lemma the_models_NoDup : NoDup (map snd the_models).
Proof. apply (bool_decide_unpack _). exact I. Qed.

Lemma run_returned fs ds w' ns :
  run fs ds = (w', Returned ns) -> completed_run fs ds w' ns.
Proof.
  intros Hrun.
  cbv [run main train load boot makedirs path_exists pd_read_excel encode_target
       split copy frame_to_csv to_csv dump_estimator dump_scaler
       scaler_fit_transform scaler_transform model_fit model_predict
       new_frame new_estimator call lift log modify get bind ret raise
       set_trace set_files set_dirs set_frames set_estimators
       files dirs frames estimators trace fst snd negb] in Hrun.
  repeat (destruct_innermost_in Hrun; try discriminate Hrun; cbv beta iota in Hrun).
  all: subst.
  all: match goal with
       | Henc : encode_columns ?cols ?X ?w = _ |- _ =>
           destruct (encode_columns_world cols X w) as (evs_cols & Hw & Hevs_cols);
           rewrite Henc in Hw;
           cbn [fst set_trace files dirs frames estimators trace] in Hw;
           injection Hw as -> -> -> -> ->
       end.
  all: match goal with
       | Hgs : GridSearchCV_fit _ _ _ _ = _ |- _ =>
           apply GridSearchCV_fit_returned in Hgs
             as (m0 & Hrefit & Htable & Hbest & Href & Hw);
           cbn [files dirs frames estimators trace] in Href, Hw;
           injection Hw as -> -> -> -> ->
       end.
  all: store_simpl.
  all: match goal with
       | Href : best_estimator_ _ = 0 |- _ => rewrite Href in *
       end.
  all: store_simpl.
  all: match goal with
       | Hloop : train_and_evaluate ?ms ?a ?b ?c ?d ∅ ?w = _ |- _ =>
           destruct (train_and_evaluate_total ms a b c d ∅ w)
             as (w2 & res & evs_cmp & Hrun2 & Hf & Hd & Hfr & Hlen & Ht & Hcmp & Hfit);
           rewrite Hloop in Hrun2; injection Hrun2 as <- <-;
           cbn [files dirs frames estimators trace length] in Hf, Hd, Hfr, Hlen, Ht;
           pose proof (train_and_evaluate_estimators ms a b c d _ _ _ _
                         the_models_NoDup Hloop) as Hest;
           pose proof (train_and_evaluate_results ms a b c d _ _ _ _
                         the_models_NoDup Hloop) as Hres;
           cbn [estimators map snd length] in Hest;
           clear Hloop
       end.
  all: subst.
  all: match goal with
       | Hlen : length ?es = 3 |- _ =>
           destruct es as [|est0 [|est1 [|est2 [|]]]]; try discriminate Hlen
       end.
  all: match goal with
       | Hest : forall r, _ |- _ =>
           destruct (Hest 0) as [Hm0 _]; destruct (Hest 1) as [Hm1 _];
           destruct (Hest 2) as [Hm2 _]; clear Hest;
           specialize (Hm0 ltac:(repeat constructor) ltac:(lia));
           specialize (Hm1 ltac:(repeat constructor) ltac:(lia));
           specialize (Hm2 ltac:(repeat constructor) ltac:(lia))
       end.
  all: store_simpl; subst.
  all: injection Hrun as <- <-.
  all: match goal with
       | Hd : read_excel _ _ = inr ?d,
         Hs : train_test_split _ _ _ _ _ = inr (?d0, ?d1, _, _),
         Hf : StandardScaler_fit_transform _ _ = (?s, ?d2, _),
         Ht : StandardScaler_transform _ _ = (_, ?d3, _),
         Hm : fit _ _ _ = (?m0, None),
         Hl : fit ?m0 _ _ = (?m1, None) |- _ =>
           exists d, d0, d1, d2, d3, s, m0, m1, evs_cols, evs_cmp
       end.
  all: unfold target_needs_encoding.
  all: cbn [files dirs frames estimators trace g_X g_y g_X_train_original
            g_X_test_original g_X_train g_X_test g_y_train g_y_test g_scaler
            g_grid_search g_best_model g_models g_results].
  all: repeat match goal with |- _ /\ _ => split end.
  all: try assumption; try reflexivity.
  all: try match goal with
           | Hb : bool_decide ?P = true |- ?P =>
               exact (proj1 (bool_decide_eq_true P) Hb)
           | Hb : exists_on_disk _ _ = true |- _ \/ _ =>
               exact (proj1 (exists_after_makedirs _ _ _ _ _) Hb)
           end.
  all: try (eexists _, _; eassumption).
  all: try match goal with
           | Hc : (_ || _) = _ |- _ => rewrite Hc; first [assumption | reflexivity]
           end.
  all: try (match goal with
            | Hc : (_ || _) = _ |- _ => rewrite Hc
            end;
            cbn [app]; rewrite <- ?app_assoc; cbn [app]; reflexivity).
  all: try match goal with
       | Hres : forall name, _ |- forall name, _ =>
           let name := fresh "name" in
           intros name; destruct (Hres name) as [Hn | Hn];
           [left; rewrite Hn; apply lookup_empty | right; exact Hn]
       end.
Qed.

(** ** What a completed run leaves on disk *)

Lemma the_models_names name model model' :
  (name, model) ∈ the_models -> (name, model') ∈ the_models -> model = model'.
Proof.
  unfold the_models. intros Hin Hin'.
  repeat (apply elem_of_cons in Hin as [Hin | Hin]);
    try (apply elem_of_nil in Hin; contradiction);
    repeat (apply elem_of_cons in Hin' as [Hin' | Hin']);
    try (apply elem_of_nil in Hin'; contradiction);
    congruence.
Qed.

(** C1, as the code does it: after a completed run [data/best_model.pkl]
    holds the tuned LightGBM estimator, that is the grid search's best
    estimator, refitted on the training set by line 90 and by the loop,
    whatever the comparison's metrics are; [data/scaler.pkl] holds the scaler
    fitted on the training frame; and the scaled splits, the labels and the
    unscaled splits are CSV files under [data/]. *)
Theorem saved_artifacts (fs : gmap string file) (ds : gset string)
    (w' : world) (ns : Namespace) :
  run fs ds = (w', Returned ns) ->
  exists (X_train_df X_test_df after_fit after_transform : DataFrame)
         (scaler1 : Scaler) (m0 m1 : Estimator),
    (* the model *)
    files w' !! "data/best_model.pkl"
    = Some (PickledEstimator (estimators w' !!! g_best_model ns))
    /\ ("LightGBM Optimisé", g_best_model ns) ∈ g_models ns
    /\ g_best_model ns = best_estimator_ (g_grid_search ns)
    /\ fit (set_params lgbm (best_params_ (g_grid_search ns)))
           (g_X_train ns) (g_y_train ns) = (m0, None)
    /\ fit m0 (g_X_train ns) (g_y_train ns) = (m1, None)
    /\ estimators w' !!! g_best_model ns
       = fst (fit m1 (g_X_train ns) (g_y_train ns))
    (* the scaler *)
    /\ files w' !! "data/scaler.pkl" = Some (PickledScaler (g_scaler ns))
    /\ StandardScaler_fit_transform StandardScaler X_train_df
       = (scaler1, after_fit, inr (g_X_train ns))
    /\ StandardScaler_transform scaler1 X_test_df
       = (g_scaler ns, after_transform, inr (g_X_test ns))
    (* the splits *)
    /\ train_test_split (g_X ns) (g_y ns) 0.2 42 (g_y ns)
       = inr (X_train_df, X_test_df, g_y_train ns, g_y_test ns)
    /\ files w' !! "data/X_train.csv"
       = Some (Csv (DataFrame_of_array (g_X_train ns) (columns (g_X ns))))
    /\ files w' !! "data/X_test.csv"
       = Some (Csv (DataFrame_of_array (g_X_test ns) (columns (g_X ns))))
    /\ files w' !! "data/y_train.csv"
       = Some (Csv (DataFrame_of_labels (g_y_train ns)))
    /\ files w' !! "data/y_test.csv"
       = Some (Csv (DataFrame_of_labels (g_y_test ns)))
    /\ files w' !! "data/X_train_original.csv" = Some (Csv X_train_df)
    /\ files w' !! "data/X_test_original.csv" = Some (Csv X_test_df).
Proof.
  intros Hrun. apply run_returned in Hrun.
  destruct Hrun as (dataset & X_train_df & X_test_df & after_fit & after_transform
    & scaler1 & m0 & m1 & evs_cols & evs_cmp & _ & _ & _ & _ & _ & Hsplit & Hfit
    & Htransform & _ & _ & Hrefit & Href & Hline90 & Hbest & Hmodels & _ & _ & _
    & Hest & _ & Hfiles & _).
  exists X_train_df, X_test_df, after_fit, after_transform, scaler1, m0, m1.
  rewrite Hfiles, Hest, Hbest, Hmodels, Href.
  repeat match goal with |- _ /\ _ => split end;
    try assumption; try reflexivity;
    try (unfold the_models; repeat constructor);
    simplify_map_eq; reflexivity.
Qed.

(** ** The entries of [results] *)

Lemma results_entry fs ds w' ns name model mt :
  run fs ds = (w', Returned ns) ->
  (name, model) ∈ g_models ns ->
  g_results ns !! name = Some mt ->
  scored (estimators w' !!! model) (g_X_test ns) (g_y_test ns) mt.
Proof.
  intros Hrun Hin Hentry. apply run_returned in Hrun.
  destruct Hrun as (dataset & X_train_df & X_test_df & after_fit & after_transform
    & scaler1 & m0 & m1 & evs_cols & evs_cmp & _ & _ & _ & _ & _ & _ & _
    & _ & _ & _ & _ & _ & _ & _ & Hmodels & _ & _ & _ & _ & Hres & _).
  rewrite Hmodels in Hin.
  destruct (Hres name) as [Hnone | (model' & mt' & Hin' & Hsome & Hscored)].
  - congruence.
  - rewrite (the_models_names _ _ _ Hin Hin').
    replace mt with mt' by congruence. exact Hscored.
Qed.

(** C5: for every model that has an entry in [results], the AUC-ROC entry is
    [roc_auc_score] of the test labels and column 1 of the fitted model's
    [predict_proba] on the test set when the model has a [predict_proba]
    attribute, and [None] when it has none. *)
Theorem auc_roc_entry (fs : gmap string file) (ds : gset string)
    (w' : world) (ns : Namespace) (name : string) (model : ref) (mt : Metrics) :
  run fs ds = (w', Returned ns) ->
  (name, model) ∈ g_models ns ->
  g_results ns !! name = Some mt ->
  let m := estimators w' !!! model in
  (hasattr_predict_proba m = true ->
   exists proba p1 a,
     predict_proba m (g_X_test ns) = inr proba
     /\ column proba 1 = inr p1
     /\ roc_auc_score (g_y_test ns) p1 = inr a
     /\ AUC_ROC mt = Some a)
  /\ (hasattr_predict_proba m = false -> AUC_ROC mt = None).
Proof.
  intros Hrun Hin Hentry m.
  destruct (results_entry _ _ _ _ _ _ _ Hrun Hin Hentry)
    as (y_pred & _ & _ & _ & _ & _ & Hauc).
  unfold auc_entry in Hauc. fold m in Hauc.
  destruct (hasattr_predict_proba m); split; intros Hattr;
    first [discriminate Hattr | exact Hauc].
Qed.

Lemma fitted_models_columns evs :
  Forall column_event evs -> fitted_models evs = [].
Proof.
  unfold fitted_models. induction 1 as [|e evs He _ IH]; [reflexivity|].
  destruct e; cbn in He |- *; try contradiction; exact IH.
Qed.

(** When [fit] does not raise and the five metrics can be computed, the
    evaluation returns them. *)
Lemma evaluate_scored model X_train X_test y_train y_test w mt :
  model < length (estimators w) ->
  snd (fit (estimators w !!! model) X_train y_train) = None ->
  scored (fst (fit (estimators w !!! model) X_train y_train)) X_test y_test mt ->
  snd (evaluate model X_train X_test y_train y_test w) = Returned mt.
Proof.
  destruct w as [fs ds fr es t]. cbn [estimators]. intros Hlt Hfit Hscored.
  destruct (fit (es !!! model) X_train y_train) as [m' exc] eqn:Hfit0.
  cbn [fst snd] in Hfit, Hscored. subst exc.
  destruct Hscored as (y_pred & Hpred & Hacc & Hprec & Hrec & Hf1 & Hauc).
  unfold auc_entry in Hauc. destruct mt as [a p r f auc].
  cbn [Accuracy Precision Recall F1_score AUC_ROC] in *.
  cbv [evaluate model_fit model_predict call lift log modify get bind ret
       raise set_trace set_estimators files dirs frames estimators trace].
  rewrite Hfit0. cbv beta iota.
  rewrite !list_lookup_total_insert_eq by exact Hlt.
  rewrite Hpred. cbv beta iota. rewrite Hacc. cbv beta iota.
  rewrite Hprec. cbv beta iota. rewrite Hrec. cbv beta iota.
  rewrite Hf1. cbv beta iota.
  rewrite !list_lookup_total_insert_eq by exact Hlt.
  destruct (hasattr_predict_proba m'); cbv beta iota.
  - destruct Hauc as (proba & p1 & a0 & Hproba & Hcol & Hroc & ->).
    rewrite Hproba. cbv beta iota. rewrite Hcol. cbv beta iota.
    rewrite Hroc. reflexivity.
  - subst auc. reflexivity.
Qed.

Lemma elem_of_map_2 {A B} (f : A -> B) (l : list A) (x : A) :
  x ∈ l -> f x ∈ map f l.
Proof.
  induction l as [|y l IH]; intros Hin.
  - apply elem_of_nil in Hin. contradiction.
  - cbn [map]. apply elem_of_cons in Hin as [-> | Hin];
      apply elem_of_cons; [left; reflexivity | right; exact (IH Hin)].
Qed.

(** The loop on a dictionary without repeated names or models: a model has
    an entry exactly when its [fit] did not raise and its metrics could be
    computed. *)
Lemma train_and_evaluate_complete models X_train X_test y_train y_test :
  forall results w w' results',
  NoDup (map snd models) -> NoDup (map fst models) ->
  Forall (fun nm => snd nm < length (estimators w)) models ->
  (forall name, name ∈ map fst models -> results !! name = None) ->
  train_and_evaluate models X_train X_test y_train y_test results w
  = (w', Returned results') ->
  forall name model mt,
    (name, model) ∈ models ->
    (results' !! name = Some mt
     <-> snd (fit (estimators w !!! model) X_train y_train) = None
         /\ scored (estimators w' !!! model) X_test y_test mt).
Proof.
  induction models as [|[name0 model0] rest IH];
    intros results w w' results' Hnd Hnames Hrange Hfresh Hrun name model mt Hin.
  - apply elem_of_nil in Hin. contradiction.
  - rewrite train_and_evaluate_cons in Hrun.
    cbn [map fst snd] in Hnd, Hnames, Hfresh.
    apply NoDup_cons in Hnd as [Hnotin Hnd].
    apply NoDup_cons in Hnames as [Hnew Hnames].
    apply Forall_cons in Hrange as [Hlt Hrange]. cbn [snd] in Hlt.
    destruct (evaluate_world model0 X_train X_test y_train y_test w)
      as (evs1 & Hw & _).
    destruct (evaluate model0 X_train X_test y_train y_test w) as [w1 o] eqn:Hev.
    cbn [fst] in Hw.
    assert (Hest : estimators w1
                   = <[model0 := fst (fit (estimators w !!! model0) X_train y_train)]>
                       (estimators w)) by (rewrite Hw; reflexivity).
    assert (Hrest : exists res,
      train_and_evaluate rest X_train X_test y_train y_test res w1
      = (w', Returned results')
      /\ (forall n, n ∈ map fst rest -> res !! n = None)
      /\ res !! name0 = match o with Returned mt0 => Some mt0 | Raised _ => None end).
    { destruct o as [mt0|e]; eexists; (split; [exact Hrun|]); split.
      - intros n Hn. rewrite lookup_insert_ne by (intros ->; contradiction).
        apply Hfresh. apply elem_of_cons. right. exact Hn.
      - apply lookup_insert_eq.
      - intros n Hn. apply Hfresh. apply elem_of_cons. right. exact Hn.
      - apply Hfresh. apply elem_of_cons. left. reflexivity. }
    destruct Hrest as (res & Hrest & Hres_fresh & Hres_head).
    apply elem_of_cons in Hin as [Heq | Hin].
    + injection Heq as -> ->.
      destruct (train_and_evaluate_estimators _ _ _ _ _ _ _ _ _ Hnd Hrest model0)
        as [_ Hout].
      rewrite (Hout Hnotin), Hest, list_lookup_total_insert_eq by exact Hlt.
      rewrite (train_and_evaluate_other_names _ _ _ _ _ _ _ _ _ _ Hrest Hnew),
        Hres_head.
      destruct o as [mt0|e].
      * pose proof (evaluate_returned _ _ _ _ _ _ _ _ Hev) as [Hfit Hsc].
        rewrite Hest, list_lookup_total_insert_eq in Hsc by exact Hlt.
        split.
        -- intros [= <-]. split; assumption.
        -- intros [_ Hsc'].
           pose proof (evaluate_scored _ _ _ _ _ _ _ Hlt Hfit Hsc') as Hret.
           rewrite Hev in Hret. cbn [snd] in Hret. congruence.
      * split; [discriminate|]. intros [Hfit Hsc].
        pose proof (evaluate_scored _ _ _ _ _ _ _ Hlt Hfit Hsc) as Hret.
        rewrite Hev in Hret. discriminate Hret.
    + assert (Hne : model0 <> model).
      { intros ->. apply Hnotin.
        exact (elem_of_map_2 snd rest (name, model) Hin). }
      assert (Hrange' : Forall (fun nm => snd nm < length (estimators w1)) rest)
        by (rewrite Hest, length_insert; exact Hrange).
      pose proof (IH res w1 w' results' Hnd Hnames Hrange' Hres_fresh Hrest
                    name model mt Hin) as Hiff.
      rewrite Hest, list_lookup_total_insert_ne in Hiff by exact Hne.
      exact Hiff.
Qed.

(** The comparison loop of a completed run: the state it starts from and
    what it returns. *)
Lemma run_returned_loop fs ds w' ns :
  run fs ds = (w', Returned ns) ->
  exists (m0 m1 : Estimator) (w1 w2 : world),
    fit (set_params lgbm (best_params_ (g_grid_search ns)))
        (g_X_train ns) (g_y_train ns) = (m0, None)
    /\ fit m0 (g_X_train ns) (g_y_train ns) = (m1, None)
    /\ estimators w1 = [m1; svc; random_forest]
    /\ train_and_evaluate the_models (g_X_train ns) (g_X_test ns)
         (g_y_train ns) (g_y_test ns) ∅ w1
       = (w2, Returned (g_results ns))
    /\ estimators w' = estimators w2
    /\ g_models ns = the_models.
Proof.
  intros Hrun.
  cbv [run main train load boot makedirs path_exists pd_read_excel encode_target
       split copy frame_to_csv to_csv dump_estimator dump_scaler
       scaler_fit_transform scaler_transform model_fit model_predict
       new_frame new_estimator call lift log modify get bind ret raise
       set_trace set_files set_dirs set_frames set_estimators
       files dirs frames estimators trace fst snd negb] in Hrun.
  repeat (destruct_innermost_in Hrun; try discriminate Hrun; cbv beta iota in Hrun).
  all: subst.
  all: match goal with
       | Henc : encode_columns ?cols ?X ?w = _ |- _ =>
           destruct (encode_columns_world cols X w) as (evs_cols & Hw & Hevs_cols);
           rewrite Henc in Hw;
           cbn [fst set_trace files dirs frames estimators trace] in Hw;
           injection Hw as -> -> -> -> ->
       end.
  all: match goal with
       | Hgs : GridSearchCV_fit _ _ _ _ = _ |- _ =>
           apply GridSearchCV_fit_returned in Hgs
             as (m0 & Hrefit & Htable & Hbest & Href & Hw);
           cbn [files dirs frames estimators trace] in Href, Hw;
           injection Hw as -> -> -> -> ->
       end.
  all: store_simpl.
  all: match goal with
       | Href : best_estimator_ _ = 0 |- _ => rewrite Href in *
       end.
  all: store_simpl.
  all: injection Hrun as <- <-.
  all: cbn [files dirs frames estimators trace g_X g_y g_X_train_original
            g_X_test_original g_X_train g_X_test g_y_train g_y_test g_scaler
            g_grid_search g_best_model g_models g_results].
  all: match goal with
       | Hloop : train_and_evaluate _ _ _ _ _ ∅ ?w1 = (?w2, _),
         Hsearch : fit (set_params _ _) _ _ = (?m, None),
         Hline90 : fit ?m _ _ = (?m1, None) |- _ =>
           exists m, m1, w1, w2;
           repeat match goal with |- _ /\ _ => split end;
           first [exact Hsearch | exact Hline90 | exact Hloop | reflexivity]
       end.
Qed.

(** C7: exactly three classifiers enter the comparison, in this order: an
    SVC with a linear kernel and probability estimates, a random forest, and
    the LightGBM estimator the grid search returned; these and no others are
    fitted by the loop; every entry of [results] belongs to one of them and
    holds its accuracy, weighted precision, weighted recall, weighted F1
    and AUC-ROC on the test set; and each of the three whose [fit] in the
    loop does not raise and whose five metrics can be computed has its entry,
    which holds these metrics. *)
Theorem three_models_compared (fs : gmap string file) (ds : gset string)
    (w' : world) (ns : Namespace) :
  run fs ds = (w', Returned ns) ->
  let X_train := g_X_train ns in
  let y_train := g_y_train ns in
  exists m0 m1 : Estimator,
    g_models ns = [("SVM", 1); ("Random Forest", 2); ("LightGBM Optimisé", 0)]
    /\ best_estimator_ (g_grid_search ns) = 0
    /\ fit (set_params lgbm (best_params_ (g_grid_search ns))) X_train y_train
       = (m0, None)
    /\ fit m0 X_train y_train = (m1, None)
    /\ estimators w'
       = [ fst (fit m1 X_train y_train);
           fst (fit (SVC [("probability", PyBool true);
                          ("kernel", PyStr "linear");
                          ("random_state", PyInt 42)]) X_train y_train);
           fst (fit (RandomForestClassifier
                       [("n_jobs", PyInt (-1)); ("random_state", PyInt 42)])
                    X_train y_train) ]
    /\ fitted_models (trace w') = [0; 1; 2; 0]
    /\ (forall name mt,
         g_results ns !! name = Some mt ->
         exists model y_pred,
           (name, model) ∈ g_models ns
           /\ predict (estimators w' !!! model) (g_X_test ns) = inr y_pred
           /\ accuracy_score (g_y_test ns) y_pred = inr (Accuracy mt)
           /\ precision_score (g_y_test ns) y_pred "weighted" = inr (Precision mt)
           /\ recall_score (g_y_test ns) y_pred "weighted" = inr (Recall mt)
           /\ f1_score (g_y_test ns) y_pred "weighted" = inr (F1_score mt)
           /\ auc_entry (estimators w' !!! model) (g_X_test ns) (g_y_test ns)
                (AUC_ROC mt))
    /\ (forall name model mt,
          (name, model) ∈ g_models ns ->
          (g_results ns !! name = Some mt
           <-> snd (fit ([m1; svc; random_forest] !!! model) X_train y_train)
               = None
               /\ scored (estimators w' !!! model) (g_X_test ns) (g_y_test ns)
                    mt)).
Proof.
  intros Hrun X_train y_train. pose proof Hrun as Hcompleted.
  apply run_returned in Hcompleted.
  destruct Hcompleted as (dataset & X_train_df & X_test_df & after_fit
    & after_transform & scaler1 & m0 & m1 & evs_cols & evs_cmp & _ & _ & _ & _
    & _ & _ & _ & _ & _ & _ & Hrefit & Href & Hline90 & _ & Hmodels & _ & _ & _
    & Hest & Hres & _ & _ & Htrace & Hcols & Hcmp & Hfitted).
  exists m0, m1. repeat match goal with |- _ /\ _ => split end;
    try assumption.
  - rewrite Htrace, !fitted_models_app, Hfitted, (fitted_models_columns _ Hcols).
    destruct (target_needs_encoding _); reflexivity.
  - intros name mt Hentry.
    destruct (Hres name) as [Hnone | (model & mt' & Hin & Hsome & Hscored)];
      [congruence|].
    replace mt' with mt in Hscored by congruence.
    destruct Hscored as (y_pred & Hscored).
    exists model, y_pred. rewrite Hmodels. split; [exact Hin | exact Hscored].
  - intros name model mt Hin. rewrite Hmodels in Hin.
    apply run_returned_loop in Hrun
      as (m0' & m1' & w1 & w2 & Hrefit' & Hline90' & Hstart & Hloop & Hend & _).
    subst X_train y_train. cbv zeta in Hrefit, Hline90.
    assert (m0' = m0) by congruence. subst m0'.
    assert (m1' = m1) by congruence. subst m1'.
    rewrite Hend, <- Hstart.
    apply (train_and_evaluate_complete the_models _ _ _ _ ∅ w1 w2 (g_results ns)).
    + exact the_models_NoDup.
    + apply (bool_decide_unpack _). vm_compute. exact I.
    + rewrite Hstart. repeat constructor.
    + intros n _. apply lookup_empty.
    + exact Hloop.
    + exact Hin.
Qed.

(** C9: the two "original" CSV files hold the train and test frames exactly
    as [train_test_split] returned them. The copies are made before the
    scaler is called, the scaler is given the frames 0 and 1 and not the
    copies 2 and 3, and at the end of the run the copies still hold the
    frames of the split, whatever the scaler did to the frames it was
    given. *)
Theorem original_frames_saved (fs : gmap string file) (ds : gset string)
    (w' : world) (ns : Namespace) :
  run fs ds = (w', Returned ns) ->
  exists (X_train_df X_test_df : DataFrame) (before after : list event),
    train_test_split (g_X ns) (g_y ns) 0.2 42 (g_y ns)
    = inr (X_train_df, X_test_df, g_y_train ns, g_y_test ns)
    /\ files w' !! "data/X_train_original.csv" = Some (Csv X_train_df)
    /\ files w' !! "data/X_test_original.csv" = Some (Csv X_test_df)
    /\ frames w' !!! g_X_train_original ns = X_train_df
    /\ frames w' !!! g_X_test_original ns = X_test_df
    /\ trace w'
       = before
         ++ [TrainTestSplit (g_X ns) (g_y ns) 0.2 42 (g_y ns);
             Copy 0 (g_X_train_original ns); Copy 1 (g_X_test_original ns);
             ScalerFitTransform 0; ScalerTransform 1;
             ToCsv "data/X_train_original.csv";
             ToCsv "data/X_test_original.csv"]
         ++ after.
Proof.
  intros Hrun. apply run_returned in Hrun.
  destruct Hrun as (dataset & X_train_df & X_test_df & after_fit & after_transform
    & scaler1 & m0 & m1 & evs_cols & evs_cmp & _ & _ & _ & _ & _ & Hsplit & _
    & _ & _ & _ & _ & _ & _ & _ & _ & Htrain_original & Htest_original & Hframes
    & _ & _ & Hfiles & _ & Htrace & _).
  exists X_train_df, X_test_df,
    ([Makedirs "data"; ReadExcel file_path]
     ++ (if target_needs_encoding (getitem dataset target_col)
         then [EncodeTarget (getitem dataset target_col)] else [])
     ++ evs_cols),
    ([GridSearchFit grid_search; Fit 0] ++ evs_cmp
     ++ [ToCsv "data/X_train.csv"; ToCsv "data/X_test.csv";
         ToCsv "data/y_train.csv"; ToCsv "data/y_test.csv";
         Dump "data/best_model.pkl"; Dump "data/scaler.pkl"]).
  rewrite Hfiles, Hframes, Htrain_original, Htest_original, Htrace.
  split; [exact Hsplit|].
  split; [simplify_map_eq; reflexivity|].
  split; [simplify_map_eq; reflexivity|].
  split; [reflexivity|]. split; [reflexivity|].
  rewrite <- !app_assoc. reflexivity.
Qed.

(** ** The encoding of the target (lines 40-41) *)

Section Always.
Variable P : event -> Prop.

Lemma always_bind {A B} (m : M A) (k : A -> M B) :
  emits (Forall P) m -> (forall x, emits (Forall P) (k x)) ->
  emits (Forall P) (bind m k).
Proof.
  intros Hm Hk w. unfold bind.
  destruct (Hm w) as (evs1 & Ht1 & Hall1).
  destruct (m w) as [w1 [x|e]]; cbn [fst] in *.
  - destruct (Hk x w1) as (evs2 & Ht2 & Hall2).
    exists (evs1 ++ evs2). rewrite Ht2, Ht1, app_assoc. split; [reflexivity|].
    apply Forall_app. split; assumption.
  - exists evs1. split; assumption.
Qed.

Lemma always_silent {A} (m : M A) :
  (forall w, trace (fst (m w)) = trace w) -> emits (Forall P) m.
Proof.
  intros Hm w. exists []. rewrite app_nil_r. split; [apply Hm|constructor].
Qed.

Lemma always_log e : P e -> emits (Forall P) (log e).
Proof.
  intros He w. exists [e]. split; [reflexivity|]. repeat constructor. exact He.
Qed.

Lemma always_impl {A} (Q : event -> Prop) (m : M A) :
  emits (Forall Q) m -> (forall e, Q e -> P e) -> emits (Forall P) m.
Proof.
  intros Hm HQP w. destruct (Hm w) as (evs & Ht & Hall).
  exists evs. split; [exact Ht|]. eapply Forall_impl; eassumption.
Qed.

End Always.

Lemma always_encode_columns cols X :
  emits (Forall column_event) (encode_columns cols X).
Proof.
  intros w. destruct (encode_columns_world cols X w) as (evs & Hw & Hevs).
  exists evs. rewrite Hw. split; [reflexivity|exact Hevs].
Qed.

Lemma always_train_and_evaluate models X_train X_test y_train y_test results :
  emits (Forall comparison_event)
    (train_and_evaluate models X_train X_test y_train y_test results).
Proof.
  intros w.
  destruct (train_and_evaluate_total models X_train X_test y_train y_test results w)
    as (w' & results' & evs & Hrun & _ & _ & _ & _ & Htrace & Hevs & _).
  exists evs. rewrite Hrun. split; assumption.
Qed.

Ltac quiet := apply always_silent; intros [? ? ? ? ?]; reflexivity.

Ltac always_step holds :=
  lazymatch goal with
  | |- emits _ (bind _ _) => apply always_bind; [|intros ?]
  | |- emits _ (log ?e) => apply always_log; holds
  | |- emits _ (ret _) => quiet
  | |- emits _ (lift ?r) => destruct r; quiet
  | |- emits _ (raise _) => quiet
  | |- emits _ get => quiet
  | |- emits _ (modify (set_files _)) => quiet
  | |- emits _ (modify (set_dirs _)) => quiet
  | |- emits _ (modify (set_frames _)) => quiet
  | |- emits _ (modify (set_estimators _)) => quiet
  | |- emits _ (new_frame _) => quiet
  | |- emits _ (new_estimator _) => quiet
  | |- emits _ (encode_columns _ _) =>
      eapply always_impl; [apply always_encode_columns | intros []; cbn; tauto]
  | |- emits _ (train_and_evaluate _ _ _ _ _ _) =>
      eapply always_impl;
      [apply always_train_and_evaluate | intros []; cbn; tauto]
  | |- emits _ (match ?x with _ => _ end) => destruct x
  end.

Ltac always holds :=
  unfold GridSearchCV_fit, split, copy, frame_to_csv, to_csv,
    dump_estimator, dump_scaler, scaler_fit_transform, scaler_transform,
    model_fit, model_predict, call;
  repeat always_step holds.

(** After line 41 the log only grows by calls that leave the target alone,
    and the split, when it is reached, is given the labels line 40 chose. *)
Lemma train_trace dataset w :
  let y0 := getitem dataset target_col in
  exists rest,
    trace (fst (train dataset w))
    = trace w ++ (if target_needs_encoding y0 then [EncodeTarget y0] else [])
      ++ rest
    /\ Forall (after_target y0) rest.
Proof.
  intros y0. unfold train. cbv zeta. fold y0.
  match goal with
  | |- context [bind (encode_target y0) ?K] => set (k := K)
  end.
  assert (Hk : forall y1,
             (if target_needs_encoding y0
              then LabelEncoder_fit_transform y0 = inr y1
              else y1 = y0) ->
             emits (Forall (after_target y0)) (k y1)).
  { intros y1 Hy1. subst k.
    always ltac:(cbn [after_target];
                 first [exact I | split; [reflexivity | exact Hy1]]). }
  unfold bind, encode_target. fold (target_needs_encoding y0).
  destruct (target_needs_encoding y0) eqn:Hcond.
  - unfold call, bind, log, modify, lift, ret, raise.
    destruct (LabelEncoder_fit_transform y0) as [e|y1] eqn:Hencoded.
    + exists []. destruct w; cbn. split; [reflexivity|constructor].
    + destruct (Hk y1 eq_refl (set_trace (fun t => t ++ [EncodeTarget y0]) w))
        as (rest & Htrace & Hrest).
      exists rest. rewrite Htrace. destruct w; cbn.
      rewrite <- app_assoc. split; [reflexivity|exact Hrest].
  - unfold ret. destruct (Hk y0 eq_refl w) as (rest & Htrace & Hrest).
    exists rest. split; [exact Htrace|exact Hrest].
Qed.

(** C10: whenever the script gets past its two checks, it calls the label
    encoder on the target exactly when the target's dtype is [object] or it
    has more than two distinct values, and on nothing but the [Diagnosis]
    column; the labels given to [train_test_split] (also as [stratify]) are
    the encoder's output in that case and the column itself otherwise. In
    particular a numeric target with two distinct values is never encoded
    and reaches the split, and through it the training, unchanged. *)
Theorem target_encoding (fs : gmap string file) (ds : gset string)
    (dataset : DataFrame) :
  is_Some (fs !! file_path) ->
  read_excel fs file_path = inr dataset ->
  target_col ∈ columns dataset ->
  let y0 := getitem dataset target_col in
  let encoded := dtype_is_object y0 || (2 <? len (unique y0))%nat in
  let t := trace (fst (run fs ds)) in
  ((exists y, EncodeTarget y ∈ t)
   <-> dtype_is_object y0 = true \/ 2 < len (unique y0))
  /\ (forall y, EncodeTarget y ∈ t -> y = y0)
  /\ (forall X y test_size seed stratify,
        TrainTestSplit X y test_size seed stratify ∈ t ->
        stratify = y
        /\ if encoded then LabelEncoder_fit_transform y0 = inr y else y = y0)
  /\ (dtype_is_object y0 = false -> len (unique y0) = 2 ->
      (forall y, EncodeTarget y ∉ t)
      /\ (forall X y test_size seed stratify,
            TrainTestSplit X y test_size seed stratify ∈ t -> y = y0)
      /\ (forall w' ns, run fs ds = (w', Returned ns) -> g_y ns = y0)).
Proof.
  intros Hsome Hread Hcol y0 encoded t.
  assert (Ht : exists rest,
             t = [Makedirs "data"; ReadExcel file_path]
                 ++ (if encoded then [EncodeTarget y0] else []) ++ rest
             /\ Forall (after_target y0) rest).
  { subst t. unfold run, main, bind. rewrite (load_present fs ds Hsome).
    cbv zeta. rewrite Hread, bool_decide_eq_true_2 by exact Hcol.
    apply (train_trace dataset). }
  destruct Ht as (rest & Ht & Hrest). rewrite Forall_forall in Hrest.
  assert (Hencoded : encoded = true
                     <-> dtype_is_object y0 = true \/ 2 < len (unique y0)).
  { unfold encoded. rewrite orb_true_iff, Nat.ltb_lt. reflexivity. }
  assert (Htarget : forall y, EncodeTarget y ∈ t -> encoded = true /\ y = y0).
  { intros y. rewrite Ht, !elem_of_app.
    intros [Hin | [Hin | Hin]].
    - repeat (apply elem_of_cons in Hin as [Hin | Hin]; [discriminate|]).
      apply elem_of_nil in Hin. contradiction.
    - destruct encoded; [|apply elem_of_nil in Hin; contradiction].
      apply list_elem_of_singleton in Hin. split; congruence.
    - apply Hrest in Hin. contradiction. }
  assert (Hsplit : forall X y test_size seed stratify,
             TrainTestSplit X y test_size seed stratify ∈ t ->
             stratify = y
             /\ if encoded then LabelEncoder_fit_transform y0 = inr y
                else y = y0).
  { intros X y test_size seed stratify. rewrite Ht, !elem_of_app.
    intros [Hin | [Hin | Hin]].
    - repeat (apply elem_of_cons in Hin as [Hin | Hin]; [discriminate|]).
      apply elem_of_nil in Hin. contradiction.
    - destruct encoded; [|apply elem_of_nil in Hin; contradiction].
      apply list_elem_of_singleton in Hin. discriminate.
    - apply Hrest in Hin. exact Hin. }
  split; [|split; [|split]].
  - split.
    + intros [y Hin]. apply Hencoded. apply (Htarget y Hin).
    + intros Hcond. apply Hencoded in Hcond. exists y0.
      rewrite Ht, Hcond, !elem_of_app. right. left.
      apply list_elem_of_singleton. reflexivity.
  - intros y Hin. apply (Htarget y Hin).
  - exact Hsplit.
  - intros Hnumeric Htwo.
    assert (Hplain : encoded = false).
    { unfold encoded. rewrite Hnumeric, Htwo. reflexivity. }
    split; [|split].
    + intros y Hin. apply Htarget in Hin as [Hin _]. congruence.
    + intros X y test_size seed stratify Hin.
      apply Hsplit in Hin as [_ Hin]. rewrite Hplain in Hin. exact Hin.
    + intros w' ns Hrun. apply run_returned in Hrun.
      destruct Hrun as (dataset' & X_train_df & X_test_df & after_fit
        & after_transform & scaler1 & m0 & m1 & evs_cols & evs_cmp & _ & Hread'
        & _ & Hy & _).
      assert (dataset' = dataset) as -> by congruence.
      fold y0 in Hy. change (target_needs_encoding y0) with encoded in Hy.
      rewrite Hplain in Hy. exact Hy.
Qed.

(** ** The grid search (lines 68-89) *)

Lemma ParameterGrid_length grid :
  length (ParameterGrid grid)
  = fold_right (fun entry n => length (snd entry) * n) 1 grid.
Proof.
  induction grid as [|[k vs] rest IH]; [reflexivity|].
  cbn [ParameterGrid fold_right snd]. rewrite <- IH. clear IH.
  induction vs as [|v vs IHvs]; [reflexivity|].
  simpl. rewrite length_app, length_map, IHvs. reflexivity.
Qed.

(** The candidates are the combinations: one value of each list, in the
    order of the grid. *)
Lemma ParameterGrid_elem grid p :
  p ∈ ParameterGrid grid
  <-> Forall2 (fun kv entry => fst kv = fst entry /\ snd kv ∈ snd entry) p grid.
Proof.
  revert p. induction grid as [|[k vs] rest IH]; intros p.
  - cbn [ParameterGrid]. rewrite list_elem_of_singleton. split.
    + intros ->. constructor.
    + intros Hp. inversion Hp. reflexivity.
  - cbn [ParameterGrid]. rewrite list_elem_of_In, in_flat_map. split.
    + intros (v & Hv & Hp). apply in_map_iff in Hp as (q & <- & Hq).
      constructor.
      * split; [reflexivity|]. apply list_elem_of_In. exact Hv.
      * apply IH. apply list_elem_of_In. exact Hq.
    + intros Hp. inversion Hp as [|[k' v] entry q rest' [Hk Hv] Hq]; subst.
      cbn in Hk, Hv. subst k'. exists v. split.
      * apply list_elem_of_In. exact Hv.
      * apply in_map_iff. exists q. split; [reflexivity|].
        apply list_elem_of_In. apply IH. exact Hq.
Qed.

Lemma best_row_spec rows :
  forall row,
    best_row row rows ∈ row :: rows
    /\ forall r, r ∈ row :: rows ->
                 (mean_test_score r <= mean_test_score (best_row row rows))%Q.
Proof.
  induction rows as [|r0 rest IH]; intros row.
  - cbn [best_row]. split; [apply list_elem_of_here|].
    intros r Hr. apply list_elem_of_singleton in Hr as ->. apply Qle_refl.
  - cbn [best_row].
    destruct (Qlt_le_dec (mean_test_score row) (mean_test_score r0)) as [Hlt|Hle].
    + destruct (IH r0) as [Hin Hmax]. split.
      * apply elem_of_cons. right. exact Hin.
      * intros r Hr. apply elem_of_cons in Hr as [-> | Hr].
        -- apply Qle_trans with (mean_test_score r0).
           ++ apply Qlt_le_weak. exact Hlt.
           ++ apply Hmax. apply list_elem_of_here.
        -- apply Hmax. exact Hr.
    + destruct (IH row) as [Hin Hmax]. split.
      * apply elem_of_cons in Hin as [-> | Hin].
        -- apply list_elem_of_here.
        -- apply elem_of_cons. right. apply elem_of_cons. right. exact Hin.
      * intros r Hr. apply elem_of_cons in Hr as [-> | Hr].
        -- apply Hmax. apply list_elem_of_here.
        -- apply elem_of_cons in Hr as [-> | Hr].
           ++ apply Qle_trans with (mean_test_score row); [exact Hle|].
              apply Hmax. apply list_elem_of_here.
           ++ apply Hmax. apply elem_of_cons. right. exact Hr.
Qed.

Lemma the_param_grid_NoDup : NoDup (ParameterGrid the_param_grid).
Proof. apply (bool_decide_unpack _). vm_compute. exact I. Qed.

Lemma search_table_params gs X y :
  map fst (search_table gs X y) = ParameterGrid (param_grid gs).
Proof.
  unfold search_table. rewrite map_map. cbn [fst]. apply map_id.
Qed.

(** C2: the search scores every combination of the five lists of the grid,
    243 distinct candidates, each on the five folds with the weighted-F1
    scorer, and the estimator it returns is LightGBM with the parameters of a
    candidate whose mean fold score no candidate exceeds, refitted on the
    training data. *)
Theorem grid_search_is_exhaustive (X : NdArray) (y : Labels)
    (w w' : world) (search : SearchResult) :
  GridSearchCV_fit grid_search X y w = (w', Returned search) ->
  length (cv_results_ search) = 243
  /\ NoDup (map fst (cv_results_ search))
  /\ (forall n_estimators learning_rate max_depth num_leaves min_child_samples,
        n_estimators ∈ [PyInt 100; PyInt 200; PyInt 300] ->
        learning_rate ∈ [PyFloat 0.01; PyFloat 0.1; PyFloat 0.3] ->
        max_depth ∈ [PyInt 3; PyInt 5; PyInt 10] ->
        num_leaves ∈ [PyInt 20; PyInt 31; PyInt 40] ->
        min_child_samples ∈ [PyInt 5; PyInt 10; PyInt 20] ->
        [ ("n_estimators", n_estimators); ("learning_rate", learning_rate);
          ("max_depth", max_depth); ("num_leaves", num_leaves);
          ("min_child_samples", min_child_samples) ]
        ∈ map fst (cv_results_ search))
  /\ (forall p scores,
        (p, scores) ∈ cv_results_ search ->
        scores
        = map (fit_and_score (set_params lgbm p) X y "f1_weighted" 5)
              [0; 1; 2; 3; 4])
  /\ (exists scores,
        (best_params_ search, scores) ∈ cv_results_ search
        /\ forall row, row ∈ cv_results_ search ->
                       (mean (snd row) <= mean scores)%Q)
  /\ fit (set_params lgbm (best_params_ search)) X y
     = (estimators w' !!! best_estimator_ search, None).
Proof.
  intros Hfit. apply GridSearchCV_fit_returned in Hfit
    as (m & Hrefit & Htable & (row & rows & Hrows & Hbest) & Href & ->).
  rewrite Htable. split; [|split; [|split; [|split; [|split]]]].
  - unfold search_table. rewrite length_map, ParameterGrid_length. reflexivity.
  - rewrite search_table_params. apply the_param_grid_NoDup.
  - intros n lr md nl mcs Hn Hlr Hmd Hnl Hmcs.
    rewrite search_table_params. apply ParameterGrid_elem.
    repeat (constructor; [split; [reflexivity|assumption]|]). constructor.
  - intros p scores Hin. unfold search_table in Hin.
    apply list_elem_of_fmap in Hin as (p' & Heq & _).
    injection Heq as -> ->. reflexivity.
  - destruct (best_row_spec rows row) as [Hin Hmax].
    exists (snd (best_row row rows)). rewrite Hrows, Hbest.
    split; [|exact Hmax].
    destruct (best_row row rows). exact Hin.
  - cbn [estimators]. rewrite Href.
    rewrite list_lookup_total_middle by reflexivity. exact Hrefit.
Qed.

(** ** Runs that raise *)

Lemma GridSearchCV_fit_world gs X y w :
  exists es,
    fst (GridSearchCV_fit gs X y w)
    = World (files w) (dirs w) (frames w) es (trace w ++ [GridSearchFit gs]).
Proof.
  destruct w as [fs ds fr es t]. unfold GridSearchCV_fit.
  fold (search_table gs X y).
  destruct (search_table gs X y) as [|row rows].
  - cbv [bind log modify raise set_trace files dirs frames estimators trace fst].
    eexists. reflexivity.
  - cbv [bind log modify raise ret new_estimator set_trace set_estimators
         files dirs frames estimators trace].
    destruct (fit _ X y) as [m [e|]]; cbn [fst]; eexists; reflexivity.
Qed.

Lemma column_events_early evs :
  Forall column_event evs -> Forall early_event evs.
Proof.
  intros Hevs. eapply Forall_impl; [exact Hevs|]. intros []; cbn; tauto.
Qed.

Ltac early_log :=
  repeat first
    [ apply Forall_nil_2
    | apply Forall_cons_2; [first [exact I | reflexivity]|]
    | apply Forall_app_2
    | apply column_events_early; assumption ].

(** A run that raises did so at or before line 90. *)
Lemma run_raised fs ds w' e :
  run fs ds = (w', Raised e) ->
  dirs w' = {["data"]} ∪ ds
  /\ Forall early_event (trace w')
  /\ (files w' = fs
      \/ exists a b,
           files w'
           = <["data/X_test_original.csv" := Csv b]>
               (<["data/X_train_original.csv" := Csv a]> fs)).
Proof.
  intros Hrun.
  cbv [run main train load boot makedirs path_exists pd_read_excel encode_target
       split copy frame_to_csv to_csv dump_estimator dump_scaler
       scaler_fit_transform scaler_transform model_fit model_predict
       new_frame new_estimator call lift log modify get bind ret raise
       set_trace set_files set_dirs set_frames set_estimators
       files dirs frames estimators trace fst snd negb] in Hrun.
  repeat (destruct_innermost_in Hrun; try discriminate Hrun; cbv beta iota in Hrun).
  all: subst.
  all: try match goal with
       | Henc : encode_columns ?cols ?X ?w = _ |- _ =>
           destruct (encode_columns_world cols X w) as (evs_cols & Hw & Hevs_cols);
           rewrite Henc in Hw;
           cbn [fst set_trace files dirs frames estimators trace] in Hw;
           first [ injection Hw as -> -> -> -> -> | subst ]
       end.
  all: try match goal with
       | Hgs : GridSearchCV_fit ?gs ?X ?y ?w = (_, Returned _) |- _ =>
           apply GridSearchCV_fit_returned in Hgs
             as (m0 & Hrefit & Htable & Hbest & Href & Hw);
           cbn [files dirs frames estimators trace] in Href, Hw;
           injection Hw as -> -> -> -> ->
       | Hgs : GridSearchCV_fit ?gs ?X ?y ?w = (_, Raised _) |- _ =>
           destruct (GridSearchCV_fit_world gs X y w) as (es & Hw);
           rewrite Hgs in Hw;
           cbn [fst files dirs frames estimators trace] in Hw;
           first [ injection Hw as -> -> -> -> -> | subst ]
       end.
  all: try match goal with
       | Hloop : train_and_evaluate ?ms ?a ?b ?c ?d ∅ ?w = (_, Raised _) |- _ =>
           destruct (train_and_evaluate_total ms a b c d ∅ w)
             as (w2 & res & evs_cmp & Hrun2 & _);
           congruence
       end.
  all: try match goal with
       | Href : best_estimator_ _ = _ |- _ =>
           cbn [length app] in Href; rewrite Href in *
       end.
  all: injection Hrun as <- <-.
  all: cbn [files dirs frames estimators trace app].
  all: (split; [reflexivity|]).
  all: (split; [early_log|]).
  all: first [ left; reflexivity | right; eexists _, _; reflexivity ].
Qed.

(** Whatever it does, the script hands the file system no other path than
    those of [listed_access]. *)
Lemma main_accesses : emits (Forall listed_access) main.
Proof.
  unfold main, load, train, makedirs, path_exists, pd_read_excel,
    encode_target.
  always ltac:(cbn [listed_access];
               first [ exact I | reflexivity
                     | apply (bool_decide_unpack _); vm_compute; exact I ]).
Qed.

(** X1: whatever the outcome of the run, the only paths the script hands to
    a writing call are its eight output files, the only directory it asks
    for is [data], and the only file it reads is the workbook of line 17,
    which is none of the eight. In the file system of the model, where a file
    is known by the path string the script writes, every path other than the
    eight holds afterwards what it held before, the workbook among them; no
    directory is removed and none but [data] is added. *)
Theorem run_writes_only_its_outputs (fs : gmap string file) (ds : gset string) :
  let w' := fst (run fs ds) in
  Forall listed_access (trace w')
  /\ (forall path, path ∉ output_paths -> files w' !! path = fs !! path)
  /\ (file_path ∉ output_paths)
  /\ files w' !! file_path = fs !! file_path
  /\ ds ⊆ dirs w' /\ dirs w' ⊆ {["data"]} ∪ ds.
Proof.
  intros w'.
  assert (Hfiles : forall path,
             path ∉ output_paths -> files w' !! path = fs !! path).
  { intros path Hpath. unfold output_paths, final_paths in Hpath.
    rewrite !not_elem_of_cons in Hpath.
    destruct Hpath as (H1 & H2 & H3 & H4 & H5 & H6 & H7 & H8 & _).
    subst w'. destruct (run fs ds) as [w' [ns|e]] eqn:Hrun; cbn [fst].
    - apply run_returned in Hrun.
      destruct Hrun as (dataset & X_train_df & X_test_df & after_fit
        & after_transform & scaler1 & m0 & m1 & evs_cols & evs_cmp & _ & _ & _
        & _ & _ & _ & _ & _ & _ & _ & _ & _ & _ & _ & _ & _ & _ & _ & _ & _
        & Hfiles & _).
      rewrite Hfiles. rewrite !lookup_insert_ne by congruence. reflexivity.
    - apply run_raised in Hrun as (_ & _ & [Hfiles | (a & b & Hfiles)]);
        rewrite Hfiles; [reflexivity|].
      rewrite !lookup_insert_ne by congruence. reflexivity. }
  assert (Hbook : file_path ∉ output_paths)
    by (apply (bool_decide_unpack _); vm_compute; exact I).
  assert (Hdirs : dirs w' = {["data"]} ∪ ds).
  { subst w'. destruct (run fs ds) as [w' [ns|e]] eqn:Hrun; cbn [fst].
    - apply run_returned in Hrun.
      destruct Hrun as (dataset & X_train_df & X_test_df & after_fit
        & after_transform & scaler1 & m0 & m1 & evs_cols & evs_cmp & _ & _ & _
        & _ & _ & _ & _ & _ & _ & _ & _ & _ & _ & _ & _ & _ & _ & _ & _ & _
        & _ & Hdirs & _).
      exact Hdirs.
    - apply run_raised in Hrun as (Hdirs & _). exact Hdirs. }
  split.
  { destruct (main_accesses (boot fs ds)) as (evs & Htrace & Hevs).
    subst w'. unfold run. rewrite Htrace. exact Hevs. }
  split; [exact Hfiles|]. split; [exact Hbook|].
  split; [exact (Hfiles _ Hbook)|].
  rewrite Hdirs. split; [apply union_subseteq_r | reflexivity].
Qed.

(** X2: the calls that can raise are those that read, encode, split,
    scale, search, fit, predict and score; the writes, the construction of
    the frames of lines 145-151 and the printing are taken not to. A run
    that raises then did so at or before line 90: a failure in the comparison
    loop never ends the run. Its log holds no call of the comparison loop, no
    dump and no CSV but the two unscaled copies; the six files of lines
    148-155 are as they were before the run, and the two unscaled copies are
    either both untouched or both rewritten. *)
Theorem failed_run_stopped_before_the_loop (fs : gmap string file)
    (ds : gset string) (w' : world) (e : exception) :
  run fs ds = (w', Raised e) ->
  Forall early_event (trace w')
  /\ (forall path, path ∈ final_paths -> files w' !! path = fs !! path)
  /\ ((files w' !! "data/X_train_original.csv" = fs !! "data/X_train_original.csv"
       /\ files w' !! "data/X_test_original.csv" = fs !! "data/X_test_original.csv")
      \/ exists a b,
           files w' !! "data/X_train_original.csv" = Some (Csv a)
           /\ files w' !! "data/X_test_original.csv" = Some (Csv b)).
Proof.
  intros Hrun. apply run_raised in Hrun as (_ & Hlog & Hfiles).
  split; [exact Hlog|].
  destruct Hfiles as [-> | (a & b & ->)].
  - split; [reflexivity|]. left. split; reflexivity.
  - split.
    + intros path Hpath. unfold final_paths in Hpath.
      repeat (apply elem_of_cons in Hpath as [-> | Hpath]);
        try (apply elem_of_nil in Hpath; contradiction);
        rewrite !lookup_insert_ne by discriminate; reflexivity.
    + right. exists a, b. split.
      * rewrite lookup_insert_ne by discriminate. apply lookup_insert_eq.
      * apply lookup_insert_eq.
Qed.

(** X3: the counterpart of a swallowed failure. When the evaluation of a
    model returns, its metrics are in the final results under its name,
    whatever happens to the models after it, provided none of those has the
    same name; an entry of the same name made before is overwritten. The
    entries under other names that the later models do not use are those the
    earlier models left. *)
Theorem successful_model_is_recorded
    (before after : list (string * ref)) (name : string) (model : ref)
    (X_train X_test : NdArray) (y_train y_test : Labels)
    (w w1 w2 : world) (results1 : gmap string Metrics) (mt : Metrics) :
  train_and_evaluate before X_train X_test y_train y_test ∅ w
  = (w1, Returned results1) ->
  evaluate model X_train X_test y_train y_test w1 = (w2, Returned mt) ->
  name ∉ map fst after ->
  exists w3 results3,
    train_and_evaluate (before ++ (name, model) :: after)
      X_train X_test y_train y_test ∅ w
    = (w3, Returned results3)
    /\ results3 !! name = Some mt
    /\ forall other,
         other <> name -> other ∉ map fst after ->
         results3 !! other = results1 !! other.
Proof.
  intros Hbefore Hreturn Hafter.
  destruct (train_and_evaluate_total after X_train X_test y_train y_test
              (<[name := mt]> results1) w2)
    as (w3 & results3 & evs & Hrun & _).
  exists w3, results3. split; [|split].
  - rewrite train_and_evaluate_app, Hbefore, train_and_evaluate_cons, Hreturn.
    exact Hrun.
  - rewrite (train_and_evaluate_other_names _ _ _ _ _ _ _ _ _ _ Hrun Hafter).
    apply lookup_insert_eq.
  - intros other Hne Hother.
    rewrite (train_and_evaluate_other_names _ _ _ _ _ _ _ _ _ _ Hrun Hother).
    apply lookup_insert_ne. congruence.
Qed.

(** ** Failures of the encoders (lines 40-47) *)

(** X4: no [try] guards line 41. When the target needs encoding and the
    encoder raises on it, the script ends with that exception right there:
    nothing is split, fitted or written. *)
Theorem target_encoding_failure_ends_the_run (fs : gmap string file)
    (ds : gset string) (dataset : DataFrame) (e : LibExc) :
  is_Some (fs !! file_path) ->
  read_excel fs file_path = inr dataset ->
  target_col ∈ columns dataset ->
  let y0 := getitem dataset target_col in
  target_needs_encoding y0 = true ->
  LabelEncoder_fit_transform y0 = inl e ->
  run fs ds
  = (World fs ({["data"]} ∪ ds) [] []
       [Makedirs "data"; ReadExcel file_path; EncodeTarget y0],
     Raised (LibraryError e)).
Proof.
  intros Hsome Hread Hcol y0 Hneeds Hraise.
  unfold run, main, bind. rewrite (load_present fs ds Hsome).
  cbv zeta. rewrite Hread, bool_decide_eq_true_2 by exact Hcol.
  unfold train. cbv zeta. fold y0.
  unfold bind at 1. unfold encode_target.
  fold (target_needs_encoding y0). rewrite Hneeds.
  cbv [call bind log modify lift raise set_trace files dirs frames estimators
       trace]. rewrite Hraise. reflexivity.
Qed.

Lemma encode_columns_app done todo :
  forall X w,
  encode_columns (done ++ todo) X w
  = match encode_columns done X w with
    | (w1, Returned X1) => encode_columns todo X1 w1
    | (w1, Raised e) => (w1, Raised e)
    end.
Proof.
  induction done as [|col rest IH]; intros X w; [reflexivity|].
  cbn [app encode_columns].
  cbv [call log modify lift bind raise].
  destruct (LabelEncoder_fit_transform (getitem X col)) as [e|v];
    [reflexivity | apply IH].
Qed.

(** X5: no [try] guards the loop of lines 45-47 either. When the encoder
    raises on a categorical column, the loop ends with that exception: the
    columns before it have been encoded, the failing call is the last one
    logged, and the columns after it are never looked at. *)
Theorem column_encoding_failure_propagates
    (done todo : list string) (col : string) (X X1 : DataFrame)
    (w w1 : world) (e : LibExc) :
  encode_columns done X w = (w1, Returned X1) ->
  LabelEncoder_fit_transform (getitem X1 col) = inl e ->
  encode_columns (done ++ col :: todo) X w
  = (set_trace (fun t => t ++ [EncodeColumn col]) w1, Raised (LibraryError e)).
Proof.
  intros Hdone Hraise. rewrite encode_columns_app, Hdone.
  cbn [encode_columns].
  cbv [call bind log modify lift raise]. rewrite Hraise. reflexivity.
Qed.

(** X6: the loop of lines 45-47 only appends to the log: one call of the
    encoder for each of the first [k] categorical columns, in their order.
    When it returns it has encoded all of them; when it raises, the call that
    raised is the last one logged. *)
Theorem encode_columns_calls (cols : list string) (X : DataFrame) (w : world) :
  exists k,
    k <= length cols
    /\ fst (encode_columns cols X w)
       = set_trace (fun t => t ++ map EncodeColumn (take k cols)) w
    /\ match snd (encode_columns cols X w) with
       | Returned _ => k = length cols
       | Raised _ => 0 < k
       end.
Proof.
  revert X w. induction cols as [|col rest IH]; intros X [fs ds fr es t].
  - exists 0. unfold set_trace.
    cbn [encode_columns ret fst snd files dirs frames estimators trace take
         map length].
    rewrite app_nil_r. auto.
  - cbn [encode_columns].
    cbv [call bind log modify lift ret raise set_trace files dirs frames
         estimators trace].
    destruct (LabelEncoder_fit_transform (getitem X col)) as [e|v]; cbv beta iota.
    + exists 1. cbn [fst snd length take map]. rewrite take_0.
      repeat split; lia.
    + destruct (IH (setitem X col v) (World fs ds fr es (t ++ [EncodeColumn col])))
        as (k & Hk & Hw & Hout).
      exists (S k). split; [cbn; lia|]. split.
      * rewrite Hw. unfold set_trace.
        cbn [files dirs frames estimators trace take map].
        rewrite <- app_assoc. reflexivity.
      * destruct (snd (encode_columns rest _ _)); cbn; lia.
Qed.

(** ** What the comparison loop leaves alone (lines 103-134) *)

(** X7: whatever the dictionary and the state, the comparison loop returns:
    no exception of the library leaves it. It writes no file, makes no directory and touches
    no frame; it adds and removes no estimator and leaves those outside its
    dictionary as they are; and the entries of [results] under names that are
    not in the dictionary are kept. *)
Theorem comparison_is_confined (models : list (string * ref))
    (X_train X_test : NdArray) (y_train y_test : Labels)
    (results : gmap string Metrics) (w : world) :
  exists w' results',
    train_and_evaluate models X_train X_test y_train y_test results w
    = (w', Returned results')
    /\ files w' = files w /\ dirs w' = dirs w /\ frames w' = frames w
    /\ length (estimators w') = length (estimators w)
    /\ (forall r, r ∉ map snd models -> estimators w' !!! r = estimators w !!! r)
    /\ (forall name, name ∉ map fst models -> results' !! name = results !! name).
Proof.
  destruct (train_and_evaluate_total models X_train X_test y_train y_test
              results w)
    as (w' & results' & evs & Hrun & Hfiles & Hdirs & Hframes & Hlen & _).
  exists w', results'. repeat split; try assumption.
  - clear Hfiles Hdirs Hframes Hlen evs.
    revert results w Hrun.
    induction models as [|[name model] rest IH]; intros results w Hrun r Hout.
    + cbn in Hrun. injection Hrun as <- _. reflexivity.
    + rewrite train_and_evaluate_cons in Hrun.
      cbn [map snd] in Hout. apply not_elem_of_cons in Hout as [Hne Hout].
      destruct (evaluate_world model X_train X_test y_train y_test w)
        as (evs1 & Hw & _).
      destruct (evaluate model X_train X_test y_train y_test w) as [w1 o].
      cbn [fst] in Hw.
      assert (Hkeep : estimators w1 !!! r = estimators w !!! r).
      { rewrite Hw. cbn [estimators].
        apply list_lookup_total_insert_ne. congruence. }
      rewrite <- Hkeep. destruct o as [mt|e]; eapply IH; eassumption.
  - intros name Hout.
    exact (train_and_evaluate_other_names _ _ _ _ _ _ _ _ _ _ Hrun Hout).
Qed.

(** ** Which models get an entry (lines 108-134) *)

(** X8: the AUC-ROC is computed last, inside the same [try] as the other
    metrics. When the model is fitted, predicts, and its accuracy, precision,
    recall and F1 are computed, but [roc_auc_score] raises, the evaluation
    raises that exception after all the other calls have been made, and the
    loop's turn for this model leaves [results] as it was: the four metrics
    already computed are dropped. *)
Theorem auc_failure_drops_the_model (name : string) (model : ref)
    (X_train X_test : NdArray) (y_train y_test : Labels)
    (results : gmap string Metrics) (w : world)
    (m' : Estimator) (y_pred : Labels) (a p r f : Q)
    (proba p1 : NdArray) (e : LibExc) :
  model < length (estimators w) ->
  fit (estimators w !!! model) X_train y_train = (m', None) ->
  predict m' X_test = inr y_pred ->
  accuracy_score y_test y_pred = inr a ->
  precision_score y_test y_pred "weighted" = inr p ->
  recall_score y_test y_pred "weighted" = inr r ->
  f1_score y_test y_pred "weighted" = inr f ->
  hasattr_predict_proba m' = true ->
  predict_proba m' X_test = inr proba ->
  column proba 1 = inr p1 ->
  roc_auc_score y_test p1 = inl e ->
  let w1 :=
    World (files w) (dirs w) (frames w) (<[model := m']> (estimators w))
      (trace w
       ++ [Fit model; Predict model; Score "Accuracy"; Score "Precision";
           Score "Recall"; Score "F1-score"; PredictProba model;
           Score "AUC-ROC"]) in
  evaluate model X_train X_test y_train y_test w
  = (w1, Raised (LibraryError e))
  /\ train_and_evaluate [(name, model)] X_train X_test y_train y_test results w
     = (w1, Returned results).
Proof.
  intros Hlt Hfit Hpred Hacc Hprec Hrec Hf1 Hattr Hproba Hcol Hroc w1.
  assert (Hev : evaluate model X_train X_test y_train y_test w
                = (w1, Raised (LibraryError e))).
  { subst w1. destruct w as [fs ds fr es t]. cbn [estimators] in Hlt, Hfit.
    cbv [evaluate model_fit model_predict call lift log modify get bind ret
         raise set_trace set_estimators files dirs frames estimators trace].
    rewrite Hfit. cbv beta iota.
    rewrite !list_lookup_total_insert_eq by exact Hlt.
    rewrite Hpred. cbv beta iota. rewrite Hacc. cbv beta iota.
    rewrite Hprec. cbv beta iota. rewrite Hrec. cbv beta iota.
    rewrite Hf1. cbv beta iota.
    rewrite !list_lookup_total_insert_eq by exact Hlt.
    rewrite Hattr. cbv beta iota.
    rewrite Hproba. cbv beta iota. rewrite Hcol. cbv beta iota.
    rewrite Hroc. cbv beta iota.
    rewrite <- !app_assoc. reflexivity. }
  split; [exact Hev|].
  rewrite train_and_evaluate_cons, Hev. reflexivity.
Qed.

(** X9: in a completed run, [results] holds exactly the successes of the
    comparison. A model of the dictionary has an entry if and only if its
    [fit] in the loop did not raise and its five metrics could be computed on
    the test set, and the entry is those metrics; the loop's [fit] starts
    from the tuned LightGBM as line 90 left it and from the fresh SVC and
    random forest. *)
Theorem results_are_exactly_the_successes (fs : gmap string file)
    (ds : gset string) (w' : world) (ns : Namespace) :
  run fs ds = (w', Returned ns) ->
  exists m0 m1 : Estimator,
    fit (set_params lgbm (best_params_ (g_grid_search ns)))
        (g_X_train ns) (g_y_train ns) = (m0, None)
    /\ fit m0 (g_X_train ns) (g_y_train ns) = (m1, None)
    /\ forall name model mt,
         (name, model) ∈ g_models ns ->
         (g_results ns !! name = Some mt
          <-> snd (fit ([m1; svc; random_forest] !!! model)
                       (g_X_train ns) (g_y_train ns)) = None
              /\ scored (estimators w' !!! model) (g_X_test ns) (g_y_test ns) mt).
Proof.
  intros Hrun.
  apply run_returned_loop in Hrun
    as (m0 & m1 & w1 & w2 & Hrefit & Hline90 & Hstart & Hloop & Hend & Hmodels).
  exists m0, m1. split; [exact Hrefit|]. split; [exact Hline90|].
  intros name model mt Hin. rewrite Hmodels in Hin. rewrite Hend, <- Hstart.
  apply (train_and_evaluate_complete the_models _ _ _ _ ∅ w1 w2 (g_results ns)).
  - exact the_models_NoDup.
  - apply (bool_decide_unpack _). vm_compute. exact I.
  - rewrite Hstart. repeat constructor.
  - intros n _. apply lookup_empty.
  - exact Hloop.
  - exact Hin.
Qed.


(** ** Where the script branches (lines 20-33, 40, 121-122 and 133) *)

Lemma encode_columns_returned cols :
  forall X w w' X',
  encode_columns cols X w = (w', Returned X') ->
  w' = set_trace (fun t => t ++ map EncodeColumn cols) w.
Proof.
  induction cols as [|col rest IH]; intros X [fs ds fr es t] w' X' Hret.
  - cbn in Hret. injection Hret as <- _. unfold set_trace.
    cbn [files dirs frames estimators trace map]. rewrite app_nil_r.
    reflexivity.
  - cbn [encode_columns] in Hret.
    cbv [call bind log modify lift ret raise set_trace files dirs frames
         estimators trace] in Hret.
    destruct (LabelEncoder_fit_transform (getitem X col)) as [e|v];
      [discriminate Hret|].
    apply IH in Hret. rewrite Hret. unfold set_trace.
    cbn [files dirs frames estimators trace map].
    rewrite <- app_assoc. reflexivity.
Qed.

(** The calls of an evaluation that returns. *)
Lemma evaluate_returned_routines model X_train X_test y_train y_test w w' mt :
  evaluate model X_train X_test y_train y_test w = (w', Returned mt) ->
  map routine_of (trace w')
  = map routine_of (trace w)
    ++ evaluation_routines (hasattr_predict_proba (estimators w' !!! model)) model.
Proof.
  intros Hret.
  destruct (evaluate_world model X_train X_test y_train y_test w) as (evs & Hw & _).
  rewrite Hret in Hw. cbn [fst] in Hw.
  assert (Hest : estimators w'
                 = <[model := fst (fit (estimators w !!! model) X_train y_train)]>
                     (estimators w)) by (rewrite Hw; reflexivity).
  rewrite Hest. clear Hw Hest evs. revert Hret. destruct w as [fs ds fr es t].
  run_evaluate; intros Hret; try discriminate Hret;
    injection Hret; intros; subst;
    rewrite !map_app; cbn [map routine_of evaluation_routines app];
    rewrite <- ?app_assoc; reflexivity.
Qed.

(** The calls of a comparison in which nothing is caught. *)
Lemma train_and_evaluate_routines models X_train X_test y_train y_test :
  forall results w w' results',
  NoDup (map snd models) -> NoDup (map fst models) ->
  (forall name, name ∈ map fst models -> results !! name = None) ->
  train_and_evaluate models X_train X_test y_train y_test results w
  = (w', Returned results') ->
  (forall name, name ∈ map fst models -> is_Some (results' !! name)) ->
  map routine_of (trace w')
  = map routine_of (trace w)
    ++ flat_map (fun nm => evaluation_routines
                             (hasattr_predict_proba (estimators w' !!! snd nm))
                             (snd nm))
         models.
Proof.
  induction models as [|[name0 model0] rest IH];
    intros results w w' results' Hnd Hnames Hfresh Hrun Hall.
  - cbn in Hrun. injection Hrun as <- _. cbn [flat_map].
    rewrite app_nil_r. reflexivity.
  - rewrite train_and_evaluate_cons in Hrun.
    cbn [map fst snd] in Hnd, Hnames, Hfresh, Hall.
    apply NoDup_cons in Hnd as [Hnotin Hnd].
    apply NoDup_cons in Hnames as [Hnew Hnames].
    destruct (evaluate model0 X_train X_test y_train y_test w) as [w1 [mt|e]] eqn:Hev.
    + pose proof (evaluate_returned_routines _ _ _ _ _ _ _ _ Hev) as Hturn.
      destruct (train_and_evaluate_estimators _ _ _ _ _ _ _ _ _ Hnd Hrun model0)
        as [_ Hout].
      assert (Hfresh' : forall name,
                 name ∈ map fst rest -> <[name0 := mt]> results !! name = None).
      { intros name Hin.
        rewrite lookup_insert_ne by (intros ->; contradiction).
        apply Hfresh. apply elem_of_cons. right. exact Hin. }
      assert (Hall' : forall name,
                 name ∈ map fst rest -> is_Some (results' !! name)).
      { intros name Hin. apply Hall. apply elem_of_cons. right. exact Hin. }
      rewrite (IH _ _ _ _ Hnd Hnames Hfresh' Hrun Hall'), Hturn.
      cbn [flat_map snd]. rewrite (Hout Hnotin), <- app_assoc. reflexivity.
    + exfalso.
      assert (Hhead : is_Some (results' !! name0))
        by (apply Hall; apply elem_of_cons; left; reflexivity).
      rewrite (train_and_evaluate_other_names _ _ _ _ _ _ _ _ _ _ Hrun Hnew),
        Hfresh in Hhead by (apply elem_of_cons; left; reflexivity).
      destruct Hhead as [mt Hmt]. discriminate Hmt.
Qed.

Lemma the_models_NoDup_names : NoDup (map fst the_models).
Proof. apply (bool_decide_unpack _). vm_compute. exact I. Qed.

(** The calls of a completed run in which the guard caught nothing are
    those of the script in order, the test of line 40, the columns of line 44
    and the answers of line 121 being given. *)
Lemma run_returned_routines fs ds w' ns :
  run fs ds = (w', Returned ns) ->
  guard_caught_nothing ns ->
  exists dataset,
    read_excel fs file_path = inr dataset
    /\ map routine_of (trace w')
       = script_routines (target_needs_encoding (getitem dataset target_col))
           (select_dtypes_object (drop dataset [target_col]))
           (fun model => hasattr_predict_proba (estimators w' !!! model)).
Proof.
  intros Hrun Hguard.
  cbv [run main train load boot makedirs path_exists pd_read_excel encode_target
       split copy frame_to_csv to_csv dump_estimator dump_scaler
       scaler_fit_transform scaler_transform model_fit model_predict
       new_frame new_estimator call lift log modify get bind ret raise
       set_trace set_files set_dirs set_frames set_estimators
       files dirs frames estimators trace fst snd negb] in Hrun.
  repeat (destruct_innermost_in Hrun; try discriminate Hrun; cbv beta iota in Hrun).
  all: subst.
  all: match goal with
       | Henc : encode_columns ?cols ?X ?w = _ |- _ =>
           apply encode_columns_returned in Henc;
           cbn [set_trace files dirs frames estimators trace] in Henc;
           injection Henc as -> -> -> -> ->
       end.
  all: match goal with
       | Hgs : GridSearchCV_fit _ _ _ _ = _ |- _ =>
           apply GridSearchCV_fit_returned in Hgs
             as (m0 & Hrefit & Htable & Hbest & Href & Hw);
           cbn [files dirs frames estimators trace] in Href, Hw;
           injection Hw as -> -> -> -> ->
       end.
  all: store_simpl.
  all: match goal with
       | Href : best_estimator_ _ = 0 |- _ => rewrite Href in *
       end.
  all: store_simpl.
  all: injection Hrun as <- <-.
  all: unfold guard_caught_nothing in Hguard.
  all: cbn [files dirs frames estimators trace g_models g_results] in *.
  all: match goal with
       | Hloop : train_and_evaluate _ _ _ _ _ ∅ _ = (_, Returned ?res) |- _ =>
           assert (Hall : forall name,
                      name ∈ map fst the_models -> is_Some (res !! name));
           [ intros name Hin; cbn [map fst the_models] in Hin;
             repeat (apply elem_of_cons in Hin as [-> | Hin]);
             [ apply (Hguard _ 1); repeat constructor
             | apply (Hguard _ 2); repeat constructor
             | apply (Hguard _ 0); repeat constructor
             | apply elem_of_nil in Hin; contradiction ]
           | pose proof (train_and_evaluate_routines _ _ _ _ _ _ _ _ _
                           the_models_NoDup the_models_NoDup_names
                           (fun n _ => lookup_empty n) Hloop Hall) as Hcalls;
             cbn [trace estimators] in Hcalls ]
       end.
  all: eexists; split; [reflexivity|].
  all: rewrite !map_app, Hcalls.
  all: unfold script_routines, target_needs_encoding.
  all: match goal with
       | Hc : (_ || _) = _ |- _ => rewrite Hc
       end.
  all: cbn [map routine_of]; rewrite !map_app, map_map.
  all: cbn [map routine_of app]; rewrite <- !app_assoc; reflexivity.
Qed.


(** C6: the script raises FileNotFoundError when the workbook's path does
    not exist (it is neither a file nor a directory), before anything is
    loaded; it raises ValueError when the loaded dataset has no [Diagnosis]
    column, before anything is encoded, split or trained; and when the file
    exists and has the column neither of the two [raise] statements is
    reached. These checks and the guard of line 133 are not the only
    branches: of two runs that reach the end with nothing caught, over the
    same categorical columns and with the same answers to the [hasattr] of
    line 121, the calls are the same exactly when the test of line 40 has the
    same answer. *)
Theorem existence_checks (fs : gmap string file) (ds : gset string) :
  (fs !! file_path = None -> file_path ∉ ds ->
   exists msg,
     run fs ds = (World fs ({["data"]} ∪ ds) [] [] [Makedirs "data"],
                  Raised (FileNotFoundError msg)))
  /\ (forall dataset,
        is_Some (fs !! file_path) ->
        read_excel fs file_path = inr dataset ->
        target_col ∉ columns dataset ->
        exists msg,
          run fs ds
          = (World fs ({["data"]} ∪ ds) [] []
               [Makedirs "data"; ReadExcel file_path],
             Raised (ValueError msg)))
  /\ (forall dataset,
        is_Some (fs !! file_path) ->
        read_excel fs file_path = inr dataset ->
        target_col ∈ columns dataset ->
        forall msg,
          snd (run fs ds) <> Raised (FileNotFoundError msg)
          /\ snd (run fs ds) <> Raised (ValueError msg))
  /\ (forall fs2 ds2 w1 w2 ns1 ns2 d1 d2,
        run fs ds = (w1, Returned ns1) ->
        run fs2 ds2 = (w2, Returned ns2) ->
        guard_caught_nothing ns1 -> guard_caught_nothing ns2 ->
        read_excel fs file_path = inr d1 ->
        read_excel fs2 file_path = inr d2 ->
        select_dtypes_object (drop d1 [target_col])
        = select_dtypes_object (drop d2 [target_col]) ->
        (forall name model,
           (name, model) ∈ g_models ns1 ->
           hasattr_predict_proba (estimators w1 !!! model)
           = hasattr_predict_proba (estimators w2 !!! model)) ->
        (target_needs_encoding (getitem d1 target_col)
         = target_needs_encoding (getitem d2 target_col)
         <-> map routine_of (trace w1) = map routine_of (trace w2))).
Proof.
  split; [|split; [|split]].
  - unfold run, main.
    intros Hnone Hdir. destruct (load_missing fs ds Hnone Hdir) as [msg Hload].
    exists msg. unfold bind. rewrite Hload. reflexivity.
  - unfold run, main.
    intros dataset Hsome Hread Hcol. eexists.
    unfold bind. rewrite (load_present fs ds Hsome). cbv zeta. rewrite Hread.
    rewrite bool_decide_eq_false_2 by exact Hcol. reflexivity.
  - unfold run, main.
    intros dataset Hsome Hread Hcol msg.
    unfold bind. rewrite (load_present fs ds Hsome). cbv zeta. rewrite Hread.
    rewrite bool_decide_eq_true_2 by exact Hcol.
    destruct (train dataset _) as [w' [ns|e]] eqn:Htrain; cbn [snd].
    + split; discriminate.
    + apply rol_train in Htrain as [le ->]. split; discriminate.
  - intros fs2 ds2 w1 w2 ns1 ns2 d1 d2 Hrun1 Hrun2 Hguard1 Hguard2
      Hread1 Hread2 Hcols Hproba.
    destruct (run_returned_routines _ _ _ _ Hrun1 Hguard1) as (d1' & Hd1 & ->).
    destruct (run_returned_routines _ _ _ _ Hrun2 Hguard2) as (d2' & Hd2 & ->).
    assert (d1' = d1) by congruence. subst d1'.
    assert (d2' = d2) by congruence. subst d2'.
    apply run_returned_loop in Hrun1
      as (_ & _ & _ & _ & _ & _ & _ & _ & _ & Hmodels).
    rewrite Hmodels in Hproba. rewrite <- Hcols.
    unfold script_routines. split.
    + intros ->. cbn [flat_map the_models snd].
      rewrite (Hproba "SVM" 1), (Hproba "Random Forest" 2),
        (Hproba "LightGBM Optimisé" 0) by (unfold the_models; repeat constructor).
      reflexivity.
    + intros Hsame.
      destruct (target_needs_encoding (getitem d1 target_col)),
        (target_needs_encoding (getitem d2 target_col));
        try reflexivity; exfalso;
        destruct (select_dtypes_object (drop d1 [target_col]));
        cbn [app map] in Hsame; discriminate Hsame.
Qed.

End Proofs.

(** * The script on the stand-in library *)

Module Runs.
Import Toy.

Ltac in_columns := apply (bool_decide_unpack _); vm_compute; exact I.

Lemma binary_run :
  @run data archive disk ∅ = (binary_world, Returned binary_namespace).
Proof. vm_compute. reflexivity. Qed.

Lemma older_run :
  @run data archive disk_older ∅ = (older_world, Returned older_namespace).
Proof. vm_compute. reflexivity. Qed.

Lemma ternary_run :
  @run data archive disk_ternary ∅ = (ternary_world, Returned ternary_namespace).
Proof. vm_compute. reflexivity. Qed.

Ltac all_recorded :=
  intros name model Hin; vm_compute in Hin;
  repeat (apply elem_of_cons in Hin as [Hin | Hin]);
  try (apply elem_of_nil in Hin; contradiction);
  injection Hin as -> ->; vm_compute; eexists; reflexivity.

Lemma binary_guard : @guard_caught_nothing data binary_namespace.
Proof. all_recorded. Qed.

Lemma older_guard : @guard_caught_nothing data older_namespace.
Proof. all_recorded. Qed.

Lemma ternary_guard : @guard_caught_nothing data ternary_namespace.
Proof. all_recorded. Qed.

Lemma binary_older_proba name model :
  (name, model) ∈ g_models binary_namespace ->
  @hasattr_predict_proba data archive (estimators binary_world !!! model)
  = @hasattr_predict_proba data archive (estimators older_world !!! model).
Proof. intros _. reflexivity. Qed.

Lemma existence_checks_witness :
  (exists msg,
     go calm ∅
     = (World ∅ ({["data"]} ∪ ∅) [] [] [Makedirs "data"],
        Raised (FileNotFoundError msg)))
  /\ (exists msg,
       go calm disk_without_target
       = (World disk_without_target ({["data"]} ∪ ∅) [] []
            [Makedirs "data"; ReadExcel file_path],
          Raised (ValueError msg)))
  /\ (forall msg,
       snd (go calm disk) <> Raised (FileNotFoundError msg)
       /\ snd (go calm disk) <> Raised (ValueError msg))
  /\ map routine_of (trace binary_world) = map routine_of (trace older_world).
Proof.
  split; [|split; [|split]].
  - apply (@existence_checks data (lib calm) ∅ ∅).
    + apply lookup_empty.
    + apply not_elem_of_empty.
  - apply (proj1 (proj2 (@existence_checks data (lib calm) disk_without_target ∅))
             (filter (fun c => negb (String.eqb (fst c) "Diagnosis")) sheet)).
    + exists workbook_without_target. apply lookup_singleton_eq.
    + vm_compute. reflexivity.
    + in_columns.
  - apply (proj1 (proj2 (proj2 (@existence_checks data (lib calm) disk ∅)))
             sheet).
    + exists workbook. apply lookup_singleton_eq.
    + vm_compute. reflexivity.
    + in_columns.
  - assert (Hread : @read_excel data archive disk file_path = inr sheet)
      by (vm_compute; reflexivity).
    assert (Hread' : @read_excel data archive disk_older file_path
                     = inr sheet_older)
      by (vm_compute; reflexivity).
    assert (Hcols : @select_dtypes_object data archive
                      (@drop data archive sheet [target_col])
                    = @select_dtypes_object data archive
                        (@drop data archive sheet_older [target_col]))
      by (vm_compute; reflexivity).
    apply (proj1 (proj2 (proj2 (proj2 (@existence_checks data archive disk ∅)))
                    disk_older ∅ _ _ _ _ sheet sheet_older
                    binary_run older_run binary_guard older_guard
                    Hread Hread' Hcols binary_older_proba)).
    vm_compute. reflexivity.
Defined.

(** C6 as the specification words it fails: the two workbooks pass both
    checks, have the same categorical column and every model is evaluated in
    both runs, but the target with three diagnoses is encoded on line 41 and
    the one with two is not. *)
Lemma line_40_is_a_branch : ~ @branches_only_on_checks_and_guard data archive.
Proof.
  intros Honly.
  assert (Hcols : @same_categorical_columns data archive disk disk_ternary).
  { intros d1 d2 Hd1 Hd2. vm_compute in Hd1, Hd2.
    injection Hd1 as <-. injection Hd2 as <-. reflexivity. }
  specialize (Honly disk disk_ternary ∅ ∅ _ _ _ _ binary_run ternary_run
                binary_guard ternary_guard Hcols).
  vm_compute in Honly. discriminate Honly.
Defined.

Lemma failed_evaluation_raises :
  failed_evaluation
  = (fst failed_evaluation, Raised (@LibraryError data "fit failed")).
Proof. vm_compute. reflexivity. Qed.

Lemma failing_model_is_skipped_witness :
  let rest := [("Random Forest", 2); ("LightGBM Optimisé", 0)] in
  let w2 := fst failed_evaluation in
  @train_and_evaluate data (lib svc_fails) ([] ++ ("SVM", 1) :: rest)
    small_X_train small_X_test small_y_train small_y_test ∅
    (at_loop svc_fails)
  = @train_and_evaluate data (lib svc_fails) rest
      small_X_train small_X_test small_y_train small_y_test ∅ w2
  /\ exists w3 results3 evs,
       @train_and_evaluate data (lib svc_fails) rest
         small_X_train small_X_test small_y_train small_y_test ∅ w2
       = (w3, Returned results3)
       /\ results3 !! "SVM" = None
       /\ trace w3 = trace w2 ++ evs
       /\ fitted_models evs = [2; 0].
Proof.
  intros rest w2.
  apply (@failing_model_is_skipped data (lib svc_fails) [] rest "SVM" 1
           small_X_train small_X_test small_y_train small_y_test
           (at_loop svc_fails) (at_loop svc_fails) w2 ∅
           (@LibraryError data "fit failed") eq_refl failed_evaluation_raises).
  - apply not_elem_of_nil.
  - in_columns.
Defined.

Lemma calm_run_completes :
  go calm disk = (calm_world, Returned calm_namespace).
Proof. vm_compute. reflexivity. Qed.

Lemma calm_models :
  g_models calm_namespace
  = [("SVM", 1); ("Random Forest", 2); ("LightGBM Optimisé", 0)].
Proof. vm_compute. reflexivity. Qed.

Lemma saved_artifacts_witness :
  go calm disk = (calm_world, Returned calm_namespace)
  /\ files calm_world !! "data/best_model.pkl"
     = Some (PickledEstimator
               (estimators calm_world !!! g_best_model calm_namespace))
  /\ ("LightGBM Optimisé", g_best_model calm_namespace)
     ∈ g_models calm_namespace
  /\ files calm_world !! "data/scaler.pkl"
     = Some (PickledScaler (g_scaler calm_namespace))
  /\ is_Some (files calm_world !! "data/X_train.csv")
  /\ is_Some (files calm_world !! "data/X_test.csv")
  /\ is_Some (files calm_world !! "data/y_train.csv")
  /\ is_Some (files calm_world !! "data/y_test.csv").
Proof.
  split; [exact calm_run_completes|].
  destruct (@saved_artifacts data (lib calm) disk ∅ _ _ calm_run_completes)
    as (X_train_df & X_test_df & after_fit & after_transform & scaler1 & m0 & m1
        & Hmodel & Hin & _ & _ & _ & _ & Hscaler & _ & _ & _ & Hxtr & Hxte
        & Hytr & Hyte & _).
  split; [exact Hmodel|]. split; [exact Hin|]. split; [exact Hscaler|].
  split; [exact (ex_intro _ _ Hxtr)|]. split; [exact (ex_intro _ _ Hxte)|].
  split; [exact (ex_intro _ _ Hytr)|exact (ex_intro _ _ Hyte)].
Defined.

(** The metrics of the run: the stand-in SVC is right on both test rows,
    the stand-in LightGBM on one. *)
Lemma calm_svm_entry :
  g_results calm_namespace !! "SVM"
  = Some {| Accuracy := 2 # 2; Precision := 2 # 2; Recall := 2 # 2;
            F1_score := 2 # 2; AUC_ROC := Some (2 # 2) |}.
Proof. vm_compute. reflexivity. Qed.

Lemma calm_lgbm_entry :
  g_results calm_namespace !! "LightGBM Optimisé"
  = Some {| Accuracy := 1 # 2; Precision := 1 # 2; Recall := 1 # 2;
            F1_score := 1 # 2; AUC_ROC := Some (1 # 2) |}.
Proof. vm_compute. reflexivity. Qed.

Lemma calm_pickle_is_lgbm model :
  model <> 0 -> model < 3 ->
  files calm_world !! "data/best_model.pkl"
  <> Some (PickledEstimator (estimators calm_world !!! model)).
Proof.
  intros Hne Hlt. destruct model as [|[|[|model]]]; [congruence| | |lia];
    vm_compute; discriminate.
Qed.

(** C1 as the specification words it fails: in this run the SVC beats the
    tuned LightGBM on every metric, and [data/best_model.pkl] still holds the
    LightGBM estimator. *)
Lemma saved_model_is_not_the_best :
  go calm disk = (calm_world, Returned calm_namespace)
  /\ ~ saved_model_is_best Accuracy calm_world calm_namespace
  /\ ~ saved_model_is_best Precision calm_world calm_namespace
  /\ ~ saved_model_is_best Recall calm_world calm_namespace
  /\ ~ saved_model_is_best F1_score calm_world calm_namespace.
Proof.
  split; [exact calm_run_completes|].
  repeat split;
    intros (name & model & mt & Hin & Hres & Hfile & Hmax);
    rewrite calm_models in Hin;
    repeat (apply elem_of_cons in Hin as [Hin | Hin]);
    try (apply elem_of_nil in Hin; contradiction);
    injection Hin as -> ->;
    try (apply calm_pickle_is_lgbm in Hfile; [contradiction | lia | lia]);
    rewrite calm_lgbm_entry in Hres; injection Hres as <-;
    specialize (Hmax _ _ calm_svm_entry);
    vm_compute in Hmax; apply Hmax; reflexivity.
Defined.

(** C4 as the specification words it fails: the unscaled copies are written
    (position 8 of the log) before the grid search is called (position 10),
    although every write is listed in the last stage. *)
Lemma listed_order_is_not_kept :
  ~ in_stage_order listed_stage (trace (fst (go calm disk))).
Proof.
  intros Horder.
  specialize (Horder 8 10 (ToCsv "data/X_train_original.csv")
                (GridSearchFit (@grid_search data (lib calm))) 7 5).
  assert (Hle : 7 <= 5); [|lia].
  apply Horder.
  - lia.
  - vm_compute. reflexivity.
  - vm_compute. reflexivity.
  - reflexivity.
  - reflexivity.
Defined.

(** When the grid search raises, the two unscaled copies are already on
    disk and nothing else has been saved. *)
Lemma unscaled_copies_outlive_a_failed_search :
  snd (go lgbm_fails disk) = Raised (@LibraryError data "fit failed")
  /\ is_Some (files (fst (go lgbm_fails disk)) !! "data/X_train_original.csv")
  /\ is_Some (files (fst (go lgbm_fails disk)) !! "data/X_test_original.csv")
  /\ files (fst (go lgbm_fails disk)) !! "data/best_model.pkl" = None
  /\ files (fst (go lgbm_fails disk)) !! "data/scaler.pkl" = None.
Proof.
  vm_compute.
  split; [reflexivity|]. split; [eexists; reflexivity|].
  split; [eexists; reflexivity|]. split; reflexivity.
Qed.

Lemma small_search_returns :
  small_search = (fst small_search, Returned (value_of no_search (snd small_search))).
Proof. vm_compute. reflexivity. Qed.

Lemma grid_search_is_exhaustive_witness :
  let search := value_of no_search (snd small_search) in
  length (cv_results_ search) = 243
  /\ exists scores,
       (best_params_ search, scores) ∈ cv_results_ search
       /\ forall row, row ∈ cv_results_ search ->
                      (mean (snd row) <= mean scores)%Q.
Proof.
  intros search.
  destruct (@grid_search_is_exhaustive data (lib calm) small_X_train
              small_y_train (boot disk ∅) (fst small_search) search
              small_search_returns)
    as (Hlen & _ & _ & _ & Hbest & _).
  split; [exact Hlen | exact Hbest].
Defined.

Lemma auc_roc_entry_witness :
  let m := estimators calm_world !!! 1 in
  (@hasattr_predict_proba data (lib calm) m = true ->
   exists proba p1 a,
     @predict_proba data (lib calm) m (g_X_test calm_namespace) = inr proba
     /\ @column data (lib calm) proba 1 = inr p1
     /\ @roc_auc_score data (lib calm) (g_y_test calm_namespace) p1 = inr a
     /\ Some (2 # 2)%Q = Some a)
  /\ (@hasattr_predict_proba data (lib calm) m = false ->
      Some (2 # 2)%Q = None).
Proof.
  assert (Hin : ("SVM", 1) ∈ g_models calm_namespace).
  { rewrite calm_models. apply list_elem_of_here. }
  exact (@auc_roc_entry data (lib calm) disk ∅ calm_world calm_namespace
           "SVM" 1 _ calm_run_completes Hin calm_svm_entry).
Defined.

Lemma calm_svm_scored :
  @scored data (lib calm) (estimators calm_world !!! 1)
    (g_X_test calm_namespace) (g_y_test calm_namespace)
    {| Accuracy := 2 # 2; Precision := 2 # 2; Recall := 2 # 2;
       F1_score := 2 # 2; AUC_ROC := Some (2 # 2) |}.
Proof.
  exists [0; 1]%Z. unfold auc_entry.
  repeat split; try (vm_compute; reflexivity).
  change (exists proba p1 a,
            @predict_proba data (lib calm) (estimators calm_world !!! 1)
              (g_X_test calm_namespace) = inr proba
            /\ @column data (lib calm) proba 1 = inr p1
            /\ @roc_auc_score data (lib calm) (g_y_test calm_namespace) p1 = inr a
            /\ Some (2 # 2)%Q = Some a).
  exists [[1; 0]; [0; 1]]%Z, [[0; 1]%Z], (2 # 2)%Q.
  repeat split; vm_compute; reflexivity.
Qed.

Lemma three_models_compared_witness :
  g_models calm_namespace
  = [("SVM", 1); ("Random Forest", 2); ("LightGBM Optimisé", 0)]
  /\ fitted_models (trace calm_world) = [0; 1; 2; 0]
  /\ g_results calm_namespace !! "SVM"
     = Some {| Accuracy := 2 # 2; Precision := 2 # 2; Recall := 2 # 2;
               F1_score := 2 # 2; AUC_ROC := Some (2 # 2) |}.
Proof.
  destruct (@three_models_compared data (lib calm) disk ∅ _ _ calm_run_completes)
    as (m0 & m1 & Hmodels & _ & _ & _ & _ & Hfitted & _ & Hrecorded).
  split; [exact Hmodels|]. split; [exact Hfitted|].
  apply (Hrecorded "SVM" 1).
  - rewrite Hmodels. apply list_elem_of_here.
  - split; [reflexivity | exact calm_svm_scored].
Defined.

(** The stand-in scaler overwrites the frame it is given; the copy and the
    file keep the frame of the split. *)
Lemma scaled_frame_differs :
  frames calm_world !!! 0
  <> frames calm_world !!! g_X_train_original calm_namespace.
Proof. vm_compute. discriminate. Qed.

Lemma original_frames_saved_witness :
  files calm_world !! "data/X_train_original.csv"
  = Some (Csv (frames calm_world !!! g_X_train_original calm_namespace))
  /\ files calm_world !! "data/X_test_original.csv"
     = Some (Csv (frames calm_world !!! g_X_test_original calm_namespace))
  /\ frames calm_world !!! 0
     <> frames calm_world !!! g_X_train_original calm_namespace.
Proof.
  destruct (@original_frames_saved data (lib calm) disk ∅ _ _ calm_run_completes)
    as (X_train_df & X_test_df & before & after & _ & Htrain & Htest & Hcopy1
        & Hcopy2 & _).
  rewrite Hcopy1, Hcopy2.
  split; [exact Htrain|]. split; [exact Htest|].
  rewrite <- Hcopy1. exact scaled_frame_differs.
Defined.

(** The [Diagnosis] column of the stand-in sheet is numeric with two
    distinct values: it is not encoded. *)
Lemma target_encoding_witness :
  (forall y, EncodeTarget y ∉ trace (fst (go calm disk)))
  /\ (forall X y test_size seed stratify,
        TrainTestSplit X y test_size seed stratify ∈ trace (fst (go calm disk)) ->
        y = @getitem data (lib calm) sheet target_col).
Proof.
  assert (Hsome : is_Some (disk !! file_path))
    by (exists workbook; apply lookup_singleton_eq).
  assert (Hread : @read_excel data (lib calm) disk file_path = inr sheet)
    by (vm_compute; reflexivity).
  assert (Hcol : target_col ∈ @columns data (lib calm) sheet) by in_columns.
  destruct (@target_encoding data (lib calm) disk ∅ sheet Hsome Hread Hcol)
    as (_ & _ & _ & Hnumeric).
  destruct Hnumeric as (Hnever & Hsplit & _);
    [vm_compute; reflexivity | vm_compute; reflexivity |].
  split; [exact Hnever | exact Hsplit].
Defined.

Lemma run_writes_only_its_outputs_witness :
  ("notes.txt" ∉ output_paths)
  /\ Forall listed_access (trace calm_world)
  /\ files calm_world !! "notes.txt" = disk !! "notes.txt"
  /\ files calm_world !! file_path = Some workbook
  /\ dirs calm_world ⊆ {["data"]} ∪ ∅.
Proof.
  assert (Hpath : "notes.txt" ∉ output_paths) by in_columns.
  destruct (@run_writes_only_its_outputs data (lib calm) disk ∅)
    as (Hlog & Hother & _ & Hbook & _ & Hdirs).
  split; [exact Hpath|]. split; [exact Hlog|].
  split; [exact (Hother "notes.txt" Hpath)|].
  split; [|exact Hdirs].
  etransitivity; [exact Hbook | apply lookup_singleton_eq].
Defined.

Lemma stalled_run :
  go lgbm_fails disk = (stalled_world, Raised (@LibraryError data "fit failed")).
Proof. vm_compute. reflexivity. Qed.

Lemma failed_run_stopped_before_the_loop_witness :
  go lgbm_fails disk = (stalled_world, Raised (@LibraryError data "fit failed"))
  /\ Forall early_event (trace stalled_world)
  /\ files stalled_world !! "data/best_model.pkl" = disk !! "data/best_model.pkl"
  /\ files stalled_world !! "data/X_train.csv" = disk !! "data/X_train.csv".
Proof.
  destruct (@failed_run_stopped_before_the_loop data (lib lgbm_fails) disk ∅
              _ _ stalled_run)
    as (Hlog & Hfinal & _).
  split; [exact stalled_run|]. split; [exact Hlog|].
  split; apply Hfinal; in_columns.
Defined.

Lemma calm_evaluation_returns :
  calm_evaluation
  = (fst calm_evaluation, Returned (value_of no_metrics (snd calm_evaluation))).
Proof. vm_compute. reflexivity. Qed.

Lemma successful_model_is_recorded_witness :
  let rest := [("Random Forest", 2); ("LightGBM Optimisé", 0)] in
  exists w3 results3,
    @train_and_evaluate data (lib calm) ([] ++ ("SVM", 1) :: rest)
      small_X_train small_X_test small_y_train small_y_test ∅ (at_loop calm)
    = (w3, Returned results3)
    /\ results3 !! "SVM" = Some (value_of no_metrics (snd calm_evaluation)).
Proof.
  intros rest.
  destruct (@successful_model_is_recorded data (lib calm) [] rest "SVM" 1
              small_X_train small_X_test small_y_train small_y_test
              (at_loop calm) (at_loop calm) (fst calm_evaluation) ∅
              (value_of no_metrics (snd calm_evaluation))
              eq_refl calm_evaluation_returns)
    as (w3 & results3 & Hrun & Hentry & _).
  - in_columns.
  - exists w3, results3. split; [exact Hrun | exact Hentry].
Defined.

Lemma target_encoding_failure_ends_the_run_witness :
  @run data unencodable disk ∅
  = (World disk ({["data"]} ∪ ∅) [] []
       [Makedirs "data"; ReadExcel file_path;
        EncodeTarget (@getitem data unencodable sheet3 target_col)],
     Raised (@LibraryError data "unorderable values")).
Proof.
  apply (@target_encoding_failure_ends_the_run data unencodable disk ∅ sheet3).
  - exists workbook. apply lookup_singleton_eq.
  - vm_compute. reflexivity.
  - in_columns.
  - vm_compute. reflexivity.
  - reflexivity.
Defined.

Lemma column_encoding_failure_propagates_witness :
  @encode_columns data unencodable ([] ++ "Sex" :: ["Age"]) sheet (boot disk ∅)
  = (set_trace (fun t => t ++ [EncodeColumn "Sex"]) (boot disk ∅),
     Raised (@LibraryError data "unorderable values")).
Proof.
  apply (@column_encoding_failure_propagates data unencodable [] ["Age"] "Sex"
           sheet sheet (boot disk ∅) (boot disk ∅) "unorderable values").
  - reflexivity.
  - reflexivity.
Defined.

Lemma comparison_is_confined_witness :
  exists w' results',
    @train_and_evaluate data (lib svc_fails) [("SVM", 1)]
      small_X_train small_X_test small_y_train small_y_test ∅
      (at_loop svc_fails)
    = (w', Returned results')
    /\ files w' = disk
    /\ estimators w' !!! 0 = @lgbm data (lib svc_fails).
Proof.
  destruct (@comparison_is_confined data (lib svc_fails) [("SVM", 1)]
              small_X_train small_X_test small_y_train small_y_test ∅
              (at_loop svc_fails))
    as (w' & results' & Hrun & Hfiles & _ & _ & _ & Hkeep & _).
  exists w', results'. split; [exact Hrun|]. split; [exact Hfiles|].
  apply (Hkeep 0). in_columns.
Defined.

Lemma auc_failure_drops_the_model_witness :
  exists w1,
    @evaluate data multiclass 1 small_X_train small_X_test
      small_y_train small_y_test (at_loop calm)
    = (w1, Raised (@LibraryError data "multi_class must be in ('ovo', 'ovr')"))
    /\ @train_and_evaluate data multiclass [("SVM", 1)]
         small_X_train small_X_test small_y_train small_y_test ∅ (at_loop calm)
       = (w1, Returned ∅).
Proof.
  eexists.
  apply (@auc_failure_drops_the_model data multiclass "SVM" 1
           small_X_train small_X_test small_y_train small_y_test ∅
           (at_loop calm)
           {| klass := "SVC";
              params := [("probability", PyBool true);
                         ("kernel", PyStr "linear");
                         ("random_state", PyInt 42)];
              fitted := 1 |}
           [0; 1]%Z (2 # 2)%Q (2 # 2)%Q (2 # 2)%Q (2 # 2)%Q
           [[1; 0]; [0; 1]]%Z [[0; 1]%Z]
           "multi_class must be in ('ovo', 'ovr')").
  - vm_compute. lia.
  - reflexivity.
  - reflexivity.
  - reflexivity.
  - reflexivity.
  - reflexivity.
  - reflexivity.
  - reflexivity.
  - reflexivity.
  - reflexivity.
  - reflexivity.
Defined.

Lemma results_are_exactly_the_successes_witness :
  exists mt,
    g_results calm_namespace !! "SVM" = Some mt
    /\ @scored data (lib calm) (estimators calm_world !!! 1)
         (g_X_test calm_namespace) (g_y_test calm_namespace) mt.
Proof.
  destruct (@results_are_exactly_the_successes data (lib calm) disk ∅ _ _
              calm_run_completes)
    as (m0 & m1 & _ & _ & Hiff).
  assert (Hin : ("SVM", 1) ∈ g_models calm_namespace).
  { rewrite calm_models. apply list_elem_of_here. }
  eexists. split; [exact calm_svm_entry|].
  exact (proj2 (proj1 (Hiff "SVM" 1 _ Hin) calm_svm_entry)).
Defined.

End Runs.
